(** * TripplannerBot: the tool layer and the tool-completion callback

    A shallow embedding of [chatTools.py] (geocoder adapter, places tool,
    route tool) and of [SimpleCallback.on_tool_end] from [chatCallback.py],
    followed by the properties established about them.  [utils.py] and the
    blocks of [main.py] that display the history and produce the response
    are embedded as well, with folium and the agent run as parameters.

    Conventions of the embedding.
    - A Python [str] is a [string]: a sequence of 8-bit characters.  The
      string methods used by the program ([lower], [strip], [startswith],
      [in], [join]) are given on that alphabet, as Python defines them on
      the code points below 128.
    - A Python object coming from JSON, from [ast.literal_eval] or from a
      tool is a [value]; a [dict] is an association list in insertion order.
    - Exceptions are values of type [exn]; a computation that can raise
      returns a [result].
    - The outside world (process environment, geocoding service, HTTP
      endpoints, JSON decoding) is a record of oracles, [World]; every call
      that leaves the process is recorded in a trace of [event]s.
    - Writes to standard output ([print], [pprint]) influence neither values
      nor control flow and are left out. *)

From Stdlib Require Import String Ascii List ZArith Lia Bool Arith.
From Stdlib Require Import DecimalString.
Import ListNotations.

Open Scope string_scope.
Open Scope nat_scope.

(* ================================================================== *)
(** ** Python strings *)
(* ================================================================== *)

Module PyStr.

(** [c.lower()] for one character: the letters [A]..[Z] move to [a]..[z]. *)
Definition ascii_lower (c : ascii) : ascii :=
  let n := nat_of_ascii c in
  if (65 <=? n) && (n <=? 90) then ascii_of_nat (n + 32) else c.

(** [s.lower()] *)
Fixpoint lower (s : string) : string :=
  match s with
  | EmptyString => EmptyString
  | String c t => String (ascii_lower c) (lower t)
  end.

(** [c.isspace()]: TAB, LF, VT, FF, CR, the separators FS, GS, RS, US and
    the space. *)
Definition isspace (c : ascii) : bool :=
  let n := nat_of_ascii c in
  ((9 <=? n) && (n <=? 13)) || ((28 <=? n) && (n <=? 32)).

(** [s.lstrip()] *)
Fixpoint lstrip (s : string) : string :=
  match s with
  | EmptyString => EmptyString
  | String c t => if isspace c then lstrip t else s
  end.

(** [s.rstrip()] *)
Fixpoint rstrip (s : string) : string :=
  match s with
  | EmptyString => EmptyString
  | String c t =>
      match rstrip t with
      | EmptyString => if isspace c then EmptyString else String c EmptyString
      | r => String c r
      end
  end.

(** [s.strip()] *)
Definition strip (s : string) : string := rstrip (lstrip s).

(** [s.startswith(p)] *)
Definition startswith (p s : string) : bool := String.prefix p s.

(** [s[n:]] *)
Fixpoint slice_from (n : nat) (s : string) : string :=
  match n, s with
  | O, _ => s
  | S _, EmptyString => EmptyString
  | S k, String _ t => slice_from k t
  end.

(** [needle in hay] *)
Fixpoint str_contains (needle hay : string) : bool :=
  match hay with
  | EmptyString => String.prefix needle EmptyString
  | String _ t => String.prefix needle hay || str_contains needle t
  end.

(** [sep.join(parts)] *)
Fixpoint join (sep : string) (parts : list string) : string :=
  match parts with
  | [] => EmptyString
  | [p] => p
  | p :: rest => p ++ sep ++ join sep rest
  end.

(** [str(i)] for a non-negative index, as an f-string renders it. *)
Definition str_of_nat (n : nat) : string :=
  NilEmpty.string_of_uint (Nat.to_uint n).

(** Characters that [urllib.parse.quote] never escapes: letters, digits and
    [_], [.], [-], [~]. *)
Definition unreserved (c : ascii) : bool :=
  let n := nat_of_ascii c in
  ((65 <=? n) && (n <=? 90)) || ((97 <=? n) && (n <=? 122)) ||
  ((48 <=? n) && (n <=? 57)) ||
  (n =? 95) || (n =? 46) || (n =? 45) || (n =? 126).

Definition hex_digit (n : nat) : ascii :=
  if n <? 10 then ascii_of_nat (48 + n) else ascii_of_nat (55 + n).

(** [urllib.parse.quote(s, safe='')]: every character outside the
    unreserved set becomes [%XX] with upper-case hexadecimal digits. *)
Fixpoint quote (s : string) : string :=
  match s with
  | EmptyString => EmptyString
  | String c t =>
      if unreserved c then String c (quote t)
      else
        let n := nat_of_ascii c in
        String "%" (String (hex_digit (n / 16)) (String (hex_digit (n mod 16)) (quote t)))
  end.

End PyStr.

Import PyStr.

(* ================================================================== *)
(** ** Python objects, exceptions and the outside world *)
(* ================================================================== *)

Module Py.

(** An IEEE-754 binary64 number, kept as its 64-bit pattern: the program
    only stores and formats such numbers, it never computes with them. *)
Definition float64 := Z.

(** The objects that travel through the tools: what [json.loads] and
    [ast.literal_eval] build, and the envelopes the tools return. *)
#[local] Set Warnings "-register-all".
Inductive value : Type :=
| VNone
| VBool (b : bool)
| VInt (n : Z)
| VFloat (f : float64)
| VStr (s : string)
| VList (items : list value)
| VDict (entries : list (string * value)).

Definition dict := list (string * value).

(** [d.get(k, None)], as an option. *)
Fixpoint dict_get (d : dict) (k : string) : option value :=
  match d with
  | [] => None
  | (k', v) :: rest => if String.eqb k' k then Some v else dict_get rest k
  end.

(** [d[k] = v]: an existing key keeps its place, a new key goes last. *)
Fixpoint dict_set (d : dict) (k : string) (v : value) : dict :=
  match d with
  | [] => [(k, v)]
  | (k', v') :: rest =>
      if String.eqb k' k then (k', v) :: rest else (k', v') :: dict_set rest k v
  end.

(** [k in d.keys()] *)
Definition dict_has (d : dict) (k : string) : bool :=
  match dict_get d k with Some _ => true | None => false end.

(** The exceptions of the program.  [ValueError], [Exception] and
    [NotImplementedError] carry the message they are raised with.  The
    interpreter's own errors keep their class only.  [ConnectionError e] is
    the error [get_route] raises, whose message is the fixed text followed
    by [str(e)].  [ProviderError] stands for whatever a library call to the
    outside raises (network failure, undecodable body, malformed literal). *)
Inductive exn : Type :=
| ValueError (msg : string)
| Exception (msg : string)
| NotImplementedError (msg : string)
| AttributeError
| TypeError
| KeyError (key : string)
| IndexError
| ProviderError (detail : string)
| ConnectionError (cause : exn).

Inductive result (A : Type) : Type :=
| Ok (a : A)
| Raise (e : exn).
Arguments Ok {A} a.
Arguments Raise {A} e.

Definition rbind {A B} (r : result A) (k : A -> result B) : result B :=
  match r with
  | Ok a => k a
  | Raise e => Raise e
  end.

(** [v[k]] with a string key. *)
Definition getitem (v : value) (k : string) : result value :=
  match v with
  | VDict d => match dict_get d k with Some x => Ok x | None => Raise (KeyError k) end
  | _ => Raise TypeError
  end.

(** The one-character strings of [s], as iteration over a [str] yields them. *)
Fixpoint chars (s : string) : list value :=
  match s with
  | EmptyString => []
  | String c t => VStr (String c EmptyString) :: chars t
  end.

(** [v[0]] *)
Definition getitem0 (v : value) : result value :=
  match v with
  | VList (x :: _) => Ok x
  | VList [] => Raise IndexError
  | VStr s => match chars s with c :: _ => Ok c | [] => Raise IndexError end
  | VDict _ => Raise (KeyError "0")
  | _ => Raise TypeError
  end.

(** [iter(v)], fully unrolled: a list yields its items, a string its
    characters, a dict its keys; anything else is not iterable. *)
Definition iterate (v : value) : result (list value) :=
  match v with
  | VList l => Ok l
  | VStr s => Ok (chars s)
  | VDict d => Ok (map (fun kv => VStr (fst kv)) d)
  | _ => Raise TypeError
  end.

(** [sep.join(items)] on objects: every item must be a [str]. *)
Fixpoint all_str (items : list value) : result (list string) :=
  match items with
  | [] => Ok []
  | VStr s :: rest =>
      match all_str rest with
      | Ok l => Ok (s :: l)
      | Raise e => Raise e
      end
  | _ :: _ => Raise TypeError
  end.

Definition join_values (sep : string) (items : list value) : result string :=
  match all_str items with
  | Ok l => Ok (join sep l)
  | Raise e => Raise e
  end.

(** What [geolocator.geocode] resolves a query to. *)
Record Location : Type := mkLocation {
  latitude : float64;
  longitude : float64
}.

(** The answer to [requests.get]: the status code, and what
    [response.json()] gives. *)
Record Response : Type := mkResponse {
  status_code : Z;
  json : result value
}.

(** A call that leaves the process. *)
Inductive event : Type :=
| Geocode (query : string)
| RequestsGet (url : string) (headers : list (string * string))
              (params : list (string * value))
| UrlOpen (url : string).

Definition trace := list event.

(** The outside world.  The network oracles see the calls made so far, so
    that a service may answer the same request differently over time. *)
Record World : Type := mkWorld {
  (** [os.environ.get(name, None)] and [os.getenv(name)] *)
  environ : string -> option string;
  (** the rate-limited [geolocator.geocode]: a location, [None], or an error *)
  geocoding_rate_limiter : trace -> string -> result (option Location);
  (** [requests.get(url, headers=..., params=...)] *)
  requests_get : trace -> string -> list (string * string) ->
                 list (string * value) -> result Response;
  (** [urllib.request.urlopen(Request(url)).read().decode("utf-8")] *)
  urlopen_read : trace -> string -> result string;
  (** [json.loads] *)
  json_loads : string -> result value;
  (** [ast.literal_eval] *)
  literal_eval : string -> result value;
  (** a float inside an f-string *)
  str_float : float64 -> string;
  (** [str.format] applied to an object that is not a string *)
  str_value : value -> string
}.

(** Computations: they read and extend the trace, and return or raise. *)
Definition M (A : Type) : Type := trace -> result A * trace.

Definition ret {A} (a : A) : M A := fun t => (Ok a, t).
Definition raise {A} (e : exn) : M A := fun t => (Raise e, t).
Definition bind {A B} (m : M A) (k : A -> M B) : M B :=
  fun t => match m t with
           | (Ok a, t') => k a t'
           | (Raise e, t') => (Raise e, t')
           end.
(** [try: m  except Exception as e: h e] *)
Definition try_except {A} (m : M A) (h : exn -> M A) : M A :=
  fun t => match m t with
           | (Ok a, t') => (Ok a, t')
           | (Raise e, t') => h e t'
           end.
Definition lift {A} (r : result A) : M A := fun t => (r, t).
(** Perform a call to the outside: record it, then take the oracle's answer
    (the oracle sees the trace before the call). *)
Definition call {A} (ev : event) (answer : trace -> result A) : M A :=
  fun t => (answer t, (t ++ [ev])%list).

(** A generator expression consumed to the end: run [f] on each item in
    order, stopping at the first exception. *)
Fixpoint for_each {A B} (f : A -> M B) (items : list A) : M (list B) :=
  match items with
  | [] => ret []
  | x :: rest =>
      bind (f x) (fun y => bind (for_each f rest) (fun ys => ret (y :: ys)))
  end.

End Py.

Import Py.

Declare Scope py_scope.
Delimit Scope py_scope with py.
Notation "x <- m ;; k" := (bind m (fun x => k))
  (at level 61, m at next level, right associativity) : py_scope.
Notation "m ;;; k" := (bind m (fun _ => k))
  (at level 61, right associativity) : py_scope.
Notation "x <~ r ;; k" := (rbind r (fun x => k))
  (at level 61, r at next level, right associativity) : py_scope.
Open Scope py_scope.

(** The line feed, Python's ["\n"]. *)
Definition nl : string := String (ascii_of_nat 10) EmptyString.

(* ================================================================== *)
(** ** chatTools.py *)
(* ================================================================== *)

Module ChatTools.

Definition RADIUS : Z := 100000.
Definition FSQ_PLACE_SEARCH_URL : string :=
  "https://api.foursquare.com/v3/places/search".
(** [FSQ_PLACE_INFO_URL.format(x)] *)
Definition FSQ_PLACE_INFO_URL (x : string) : string :=
  "https://api.foursquare.com/v3/places/" ++ x ++ "/tips".
(** [ROUTE_URL.format(mode)] *)
Definition ROUTE_URL (mode : string) : string :=
  "http://dev.virtualearth.net/REST/V1/Routes/" ++ mode ++ "?".

(** An argument of [str.format]: a string goes in as it is. *)
Definition format_arg (w : World) (v : value) : string :=
  match v with
  | VStr s => s
  | _ => str_value w v
  end.

Definition fsq_headers (fsq_api_key : string) : list (string * string) :=
  [("accept", "application/json"); ("Authorization", fsq_api_key)].

Definition get_fsq_info_of_location (w : World) (name fsq_id : value) : M value :=
  try_except
    (let url := FSQ_PLACE_INFO_URL (format_arg w fsq_id) in
     match environ w "FSQ_API_KEY" with
     | None => raise (ValueError "API KEY for FSQ must be set")
     | Some fsq_api_key =>
         let headers := fsq_headers fsq_api_key in
         let params := [("sort", VStr "POPULAR"); ("limit", VInt 2)] in
         response <- call (RequestsGet url headers params)
                          (fun t => requests_get w t url headers params) ;;
         if negb (status_code response =? 200)%Z
         then raise (Exception "Failed to fetch location's additional info.")
         else
           tips <- lift (json response) ;;
           match name with
           | VStr name =>
               tips <- lift (iterate tips) ;;
               texts <- for_each (fun tip => lift (getitem tip "text")) tips ;;
               joined <- lift (join_values " " texts) ;;
               ret (VStr (name ++ ": " ++ joined))
           | _ => raise TypeError
           end
     end)
    (fun _ => ret VNone).

Definition get_places_of_interests (w : World) (latitude longitude : float64)
    (radius : Z) : M value :=
  try_except
    (match environ w "FSQ_API_KEY" with
     | None => raise (ValueError "API KEY for FSQ must be set")
     | Some fsq_api_key =>
         let url := FSQ_PLACE_SEARCH_URL in
         let headers := fsq_headers fsq_api_key in
         let params :=
           [("ll", VStr (str_float w latitude ++ "," ++ str_float w longitude));
            ("radius", VInt radius);
            ("sort", VStr "RELEVANCE");
            ("limit", VInt 10)] in
         response <- call (RequestsGet url headers params)
                          (fun t => requests_get w t url headers params) ;;
         if negb (status_code response =? 200)%Z
         then raise (Exception "Failed to fetch places of interest.")
         else
           body <- lift (json response) ;;
           places <- lift (getitem body "results") ;;
           places <- lift (iterate places) ;;
           descriptions <-
             for_each (fun place =>
                         name <- lift (getitem place "name") ;;
                         fsq_id <- lift (getitem place "fsq_id") ;;
                         get_fsq_info_of_location w name fsq_id) places ;;
           places_description <- lift (join_values nl descriptions) ;;
           ret (VStr places_description)
     end)
    (fun _ => ret VNone).

(** The query [get_location_data] hands to the geocoder. *)
Definition location_query (location : string) : string :=
  if startswith "location=" location
  then strip (slice_from (String.length "location=") location)
  else location.

Definition get_location_data (w : World) (location : string) : M Location :=
  let location := location_query location in
  try_except
    (location_details <- call (Geocode location)
                              (fun t => geocoding_rate_limiter w t location) ;;
     match location_details with
     | Some details => ret details
     | None => raise (Exception "Location not found. Please refine your query.")
     end)
    (fun exc => raise exc).

Module PlacesOfInterestTool.

Definition _run (w : World) (location : string) : M value :=
  location_data <- get_location_data w location ;;
  places_of_interest <-
    get_places_of_interests w (latitude location_data) (longitude location_data)
                            RADIUS ;;
  ret (VDict [("output", places_of_interest)]).

Definition _arun (location : string) : M value :=
  raise (NotImplementedError "This tool does not support async").

End PlacesOfInterestTool.

(** The [for i, loc in enumerate(locations)] loop of [get_route], from
    index [i] on. *)
Fixpoint add_waypoints (route_url : string) (i : nat) (locations : list value)
    : result string :=
  match locations with
  | [] => Ok route_url
  | VStr loc :: rest =>
      let encoded_location := quote loc in
      if i =? 0
      then add_waypoints (route_url ++ ("wp." ++ str_of_nat i ++ "=") ++ encoded_location)
                         (S i) rest
      else add_waypoints (route_url ++ ("&wp." ++ str_of_nat i ++ "=") ++ encoded_location)
                         (S i) rest
  | _ :: _ => Raise TypeError
  end.

(** The [for item in itinerary_items] loop of [get_route]. *)
Fixpoint collect_itinerary (itinerary_items : list value)
    (directions : list string) (geocode_points : list value)
    : result (list string * list value) :=
  match itinerary_items with
  | [] => Ok (directions, geocode_points)
  | item :: rest =>
      instruction <~ getitem item "instruction" ;;
      text <~ getitem instruction "text" ;;
      match text with
      | VStr text =>
          let directions := (directions ++ [("- " ++ text)%string])%list in
          maneuverPoint <~ getitem item "maneuverPoint" ;;
          coordinates <~ getitem maneuverPoint "coordinates" ;;
          collect_itinerary rest directions (geocode_points ++ [coordinates])%list
      | _ => Raise TypeError
      end
  end.

(** [result["resourceSets"][0]["resources"][0]["routeLegs"][0]["itineraryItems"]] *)
Definition itinerary_of (result : value) : Py.result value :=
  a <~ getitem result "resourceSets" ;;
  a <~ getitem0 a ;;
  a <~ getitem a "resources" ;;
  a <~ getitem0 a ;;
  a <~ getitem a "routeLegs" ;;
  a <~ getitem0 a ;;
  getitem a "itineraryItems".

Definition get_route (w : World) (locations : value) (mode : string) : M value :=
  match environ w "BING_API_KEY" with
  | None | Some EmptyString =>
      raise (ValueError "Bing API key must be set in environment variables.")
  | Some bing_maps_key =>
      let route_url := ROUTE_URL mode in
      locations <- lift (iterate locations) ;;
      route_url <- lift (add_waypoints route_url 0 locations) ;;
      let route_url := route_url ++ "&key=" ++ bing_maps_key in
      try_except
        (r <- call (UrlOpen route_url) (fun t => urlopen_read w t route_url) ;;
         result <- lift (json_loads w r) ;;
         itinerary_items <- lift (itinerary_of result) ;;
         itinerary_items <- lift (iterate itinerary_items) ;;
         steps <- lift (collect_itinerary itinerary_items [] []) ;;
         let '(directions, geocode_points) := steps in
         ret (VDict [("output", VStr (join nl directions));
                     ("geocode_points", VList geocode_points)]))
        (fun e => raise (ConnectionError e))
  end.

Module RouteRetriever.

Definition detect_transportation_mode (transportation_mode : string) : string :=
  let transportation_mode := lower transportation_mode in
  let _ := strip transportation_mode in
  if str_contains "foot" transportation_mode || str_contains "walk" transportation_mode
  then "Walking"
  else if str_contains "cycle" transportation_mode
  then "bicycle"
  else if str_contains "public" transportation_mode
          || str_contains "bus" transportation_mode
          || str_contains "train" transportation_mode
          || str_contains "transit" transportation_mode
  then "Transit"
  else "Driving".

Definition _run (w : World) (input_data : value) : M value :=
  input_data <- match input_data with
                | VStr s => lift (literal_eval w s)
                | _ => ret input_data
                end ;;
  match input_data with
  | VDict input_data =>
      match match dict_get input_data "transportation_mode" with
            | Some v => v
            | None => VStr "car"
            end
      with
      | VStr transportation_mode =>
          let mode := detect_transportation_mode transportation_mode in
          let locations := match dict_get input_data "locations" with
                           | Some v => v
                           | None => VList [VStr ""]
                           end in
          get_route w locations mode
      | _ => raise AttributeError
      end
  | _ => raise AttributeError
  end.

Definition _arun (locations : list string) (transportation_mode : string) : M value :=
  raise (NotImplementedError "This tool does not support asynchronous operations.").

End RouteRetriever.

End ChatTools.

(* ================================================================== *)
(** ** chatCallback.py *)
(* ================================================================== *)

Module ChatCallback.

(** [x.copy()]: lists and dicts have the method, the other objects do not.
    The copy is shallow; as objects are values here, it is the same value in
    a container of its own. *)
Definition copy (x : value) : result value :=
  match x with
  | VList l => Ok (VList l)
  | VDict d => Ok (VDict d)
  | _ => Raise AttributeError
  end.

(** What a call of [on_tool_end] leaves behind: the session's message log,
    the object that was passed in (the handler writes into it), and what
    the call returns or raises. *)
Record ToolEnd : Type := mkToolEnd {
  messages_after : list value;
  output_after : value;
  returned : result value
}.

Section Handler.

(** [BaseCallbackHandler.on_tool_end], the framework's handler that
    [SimpleCallback] extends: what it returns for a given output. *)
Variable base_on_tool_end : value -> value.

Definition forward (messages : list value) (output : value) : ToolEnd :=
  {| messages_after := messages;
     output_after := output;
     returned := Ok (base_on_tool_end output) |}.

(** [SimpleCallback.on_tool_end], with [self.st_state.messages] as
    [messages]. *)
Definition on_tool_end (messages : list value) (output : value) : ToolEnd :=
  match output with
  | VDict d =>
      match dict_get d "geocode_points" with
      | None | Some VNone => forward messages output
      | Some points =>
          match copy points with
          | Raise e =>
              {| messages_after := messages;
                 output_after := output;
                 returned := Raise e |}
          | Ok copied =>
              let geocode_points := VDict [("geocode_points", copied)] in
              let output := VDict (dict_set d "geocode_points" (VStr "")) in
              {| messages_after := (messages ++ [geocode_points])%list;
                 output_after := output;
                 returned := Ok output |}
          end
      end
  | _ => forward messages output
  end.

End Handler.

End ChatCallback.

(* ================================================================== *)
(** ** utils.py *)
(* ================================================================== *)

Module Utils.

Section Folium.

(** The maps folium builds. *)
Variable FMap : Type.
(** [folium.Map(location=..., zoom_start=..., tiles=...)]: the map, or the
    error folium raises for a location it cannot use. *)
Variable folium_Map : value -> Z -> string -> result FMap.
(** [folium.PolyLine(locations=route).add_to(m)] followed by
    [m.fit_bounds(m.get_bounds())]: the map with the line on it, or the
    error folium raises for a route it cannot draw. *)
Variable add_polyline : FMap -> value -> result FMap.

Definition get_route_leafmap (route : value) : result FMap :=
  location <~ getitem0 route ;;
  m <~ folium_Map location 13 "cartodbpositron" ;;
  add_polyline m route.

End Folium.

End Utils.

(* ================================================================== *)
(** ** main.py *)
(* ================================================================== *)

Module Main.

Import Utils.

Section Script.

Variable FMap : Type.
Variable folium_Map : value -> Z -> string -> result FMap.
Variable add_polyline : FMap -> value -> result FMap.

(** [st.session_state.chat_engine.make_request(prompt)], seen from the
    script: the response or the error, and the message log as the
    callbacks of the run have left it. *)
Variable make_request : option string -> list value -> result string * list value.

(** What the script puts on the page. *)
Inductive ui_event : Type :=
| ChatMessage (role : value)
| Write (content : value)
| Spinner
| StFolium (m : FMap) (key : value).

(** The state of one run of the script: [st.session_state.messages] and the
    page so far. *)
Record State : Type := mkState {
  messages : list value;
  page : list ui_event
}.

Definition U (A : Type) : Type := State -> result A * State.

Definition uret {A} (a : A) : U A := fun s => (Ok a, s).
Definition ubind {A B} (m : U A) (k : A -> U B) : U B :=
  fun s => match m s with
           | (Ok a, s') => k a s'
           | (Raise e, s') => (Raise e, s')
           end.
Definition ulift {A} (r : result A) : U A := fun s => (r, s).
Definition emit (ev : ui_event) : U unit :=
  fun s => (Ok tt, {| messages := messages s; page := (page s ++ [ev])%list |}).
Definition get_messages : U (list value) := fun s => (Ok (messages s), s).
Definition set_messages (l : list value) : U unit :=
  fun s => (Ok tt, {| messages := l; page := page s |}).

(** [k in message.keys()] *)
Definition has_key (message : value) (k : string) : result bool :=
  match message with
  | VDict d => Ok (dict_has d k)
  | _ => Raise AttributeError
  end.

(** The body of the loop that displays the chat history. *)
Definition show_message (message : value) : U unit :=
  ubind (ulift (has_key message "role")) (fun with_role =>
  ubind (if with_role : bool
         then ubind (ulift (getitem message "role")) (fun role =>
              ubind (emit (ChatMessage role)) (fun _ =>
              ubind (ulift (getitem message "content")) (fun content =>
              emit (Write content))))
         else uret tt) (fun _ =>
  ubind (ulift (has_key message "geocode_points")) (fun with_points =>
  if with_points : bool
  then ubind (ulift (getitem message "geocode_points")) (fun route =>
       ubind (ulift (getitem message "figure_key")) (fun figure_key =>
       ubind (ulift (get_route_leafmap FMap folium_Map add_polyline route)) (fun m =>
       emit (StFolium m figure_key))))
  else uret tt))).

(** [for message in st.session_state.messages: ...] *)
Fixpoint show_messages (l : list value) : U unit :=
  match l with
  | [] => uret tt
  | message :: rest => ubind (show_message message) (fun _ => show_messages rest)
  end.

(** [l[-1]] *)
Definition last_item (l : list value) : result value :=
  match rev l with
  | x :: _ => Ok x
  | [] => Raise IndexError
  end.

(** [l[-1][k] = v] *)
Definition set_last_field (l : list value) (k : string) (v : value) : result (list value) :=
  match rev l with
  | VDict d :: before => Ok (rev before ++ [VDict (dict_set d k v)])%list
  | _ :: _ => Raise TypeError
  | [] => Raise IndexError
  end.

(** [role != "assistant"] *)
Definition not_assistant (role : value) : bool :=
  match role with
  | VStr s => negb (String.eqb s "assistant")
  | _ => true
  end.

(** The last block of the script: if the last message is not from the
    assistant, ask the agent, draw the map of the route the run has left in
    the log, and record the response.  [figure_key] is the fresh
    [str(uuid.uuid4())]. *)
Definition respond (figure_key : string) (prompt : option string) : U unit :=
  ubind get_messages (fun l =>
  ubind (ulift (last_item l)) (fun last =>
  ubind (ulift (getitem last "role")) (fun role =>
  if not_assistant role
  then
    ubind (emit (ChatMessage (VStr "assistant"))) (fun _ =>
    ubind (emit Spinner) (fun _ =>
    ubind (fun s => let (r, l') := make_request prompt (messages s) in
                    (r, {| messages := l'; page := page s |})) (fun response =>
    ubind get_messages (fun l =>
    ubind (if 1 <? List.length l
           then ubind (ulift (last_item l)) (fun last =>
                ubind (ulift (has_key last "geocode_points")) (fun with_points =>
                if with_points : bool
                then ubind (ulift (getitem last "geocode_points")) (fun route =>
                     ubind (ulift (get_route_leafmap FMap folium_Map add_polyline route))
                       (fun m =>
                     ubind (emit (StFolium m (VStr figure_key))) (fun _ =>
                     ubind (ulift (set_last_field l "figure_key" (VStr figure_key)))
                       set_messages)))
                else uret tt))
           else uret tt) (fun _ =>
    ubind (emit (Write (VStr response))) (fun _ =>
    ubind get_messages (fun l =>
    set_messages (l ++ [VDict [("role", VStr "assistant");
                               ("content", VStr response)]])%list)))))))
  else uret tt))).

(** One run of the script on a session that has its chat engine: the log is
    created if the session has none, the prompt, if any, is appended, the
    history is displayed, and the response is produced. *)
Definition script (figure_key : string) (prompt : option string)
    (session_messages : option (list value)) : result unit * State :=
  let l := match session_messages with
           | Some l => l
           | None => [VDict [("role", VStr "assistant");
                             ("content", VStr "Ask me anything about anywhere!")]]
           end in
  let l := match prompt with
           | Some (String c p) =>
               (l ++ [VDict [("role", VStr "user"); ("content", VStr (String c p))]])%list
           | _ => l
           end in
  ubind (show_messages l) (fun _ => respond figure_key prompt)
    {| messages := l; page := [] |}.

End Script.

End Main.

(* ================================================================== *)
(** ** Vocabulary of the properties *)
(* ================================================================== *)

Import ChatTools ChatCallback.

(** [kw] occurs in [s] when the case of the letters is ignored: some
    contiguous part of [s] lower-cases to [kw]. *)
Definition ci_occurs (kw s : string) : Prop :=
  exists a m b, s = a ++ m ++ b /\ lower m = kw.

Definition says_walking (s : string) : Prop :=
  ci_occurs "foot" s \/ ci_occurs "walk" s.
Definition says_cycle (s : string) : Prop :=
  ci_occurs "cycle" s.
Definition says_transit (s : string) : Prop :=
  ci_occurs "public" s \/ ci_occurs "bus" s \/ ci_occurs "train" s
  \/ ci_occurs "transit" s.




(** The query parameter of the waypoint at position [i]. *)
Definition waypoint_param (i : nat) (loc : string) : string :=
  "wp." ++ str_of_nat i ++ "=" ++ quote loc.

(** The waypoint parameters of a list of locations, numbered from [i]. *)
Fixpoint waypoint_params (i : nat) (locs : list string) : list string :=
  match locs with
  | [] => []
  | loc :: rest => waypoint_param i loc :: waypoint_params (S i) rest
  end.

(** The text and the coordinates of one itinerary step of the provider. *)
Definition step_text (item : value) : result value :=
  instruction <~ getitem item "instruction" ;; getitem instruction "text".
Definition step_coordinates (item : value) : result value :=
  maneuverPoint <~ getitem item "maneuverPoint" ;; getitem maneuverPoint "coordinates".

(** The itinerary steps in the provider's answer to the request for [url],
    made after the calls of [t]. *)
Definition provider_itinerary (w : World) (t : trace) (url : string)
    : result (list value) :=
  r <~ urlopen_read w t url ;;
  result <~ json_loads w r ;;
  itinerary_items <~ itinerary_of result ;;
  iterate itinerary_items.

(** The request [get_places_of_interests] sends to the places provider. *)
Definition places_search (w : World) (fsq_api_key : string) (lat lon : float64)
    (radius : Z) : event :=
  RequestsGet FSQ_PLACE_SEARCH_URL (fsq_headers fsq_api_key)
    [("ll", VStr (str_float w lat ++ "," ++ str_float w lon));
     ("radius", VInt radius);
     ("sort", VStr "RELEVANCE");
     ("limit", VInt 10)].

(** What [get_route] makes of the provider's answer to the request for
    [url]: the envelope built from the itinerary steps. *)
Definition parse_route (w : World) (t : trace) (url : string) : result value :=
  itinerary_items <~ provider_itinerary w t url ;;
  steps <~ collect_itinerary itinerary_items [] [] ;;
  Ok (VDict [("output", VStr (join nl (fst steps)));
             ("geocode_points", VList (snd steps))]).

(** The request URL for a path segment [mode], waypoints [locs] and
    credential [key]. *)
Definition route_request_url (mode : string) (locs : list string) (key : string)
    : string :=
  ROUTE_URL mode ++ join "&" (waypoint_params 0 locs) ++ "&key=" ++ key.

(** Each parameter with an ampersand in front. *)
Fixpoint amp_all (params : list string) : string :=
  match params with
  | [] => EmptyString
  | p :: rest => "&" ++ p ++ amp_all rest
  end.

(** The envelope carries no coordinates as far as [on_tool_end] is
    concerned: it is not a dict, or the field is absent or [None]. *)
Definition no_geocode_points (output : value) : Prop :=
  match output with
  | VDict d => dict_get d "geocode_points" = None
               \/ dict_get d "geocode_points" = Some VNone
  | _ => True
  end.

(* ================================================================== *)
(** ** Sample inputs *)
(* ================================================================== *)

Module Samples.

(** The envelope of the specification's example, and the session log of a
    conversation that has just begun. *)
Definition sample_route_envelope : dict :=
  [("output", VStr "x");
   ("geocode_points", VList [VList [VInt 1; VInt 2]; VList [VInt 3; VInt 4]])].
Definition greeting : list value :=
  [VDict [("role", VStr "assistant");
          ("content", VStr "Ask me anything about anywhere!")]].

(** Pune, at latitude 18.52 and longitude 73.85. *)
Definition pune : Location :=
  {| latitude := 4625906134250810245%Z; longitude := 4634897148694390374%Z |}.

Definition show_float (f : float64) : string :=
  if (f =? 4625906134250810245)%Z then "18.52"
  else if (f =? 4634897148694390374)%Z then "73.85"
  else "0.0".

(** A process without credentials and without network: every lookup comes
    back empty and every request fails. *)
Definition offline : World :=
  {| environ := fun _ => None;
     geocoding_rate_limiter := fun _ _ => Ok None;
     requests_get := fun _ _ _ _ => Raise (ProviderError "unreachable");
     urlopen_read := fun _ _ => Raise (ProviderError "unreachable");
     json_loads := fun _ => Raise (ProviderError "not JSON");
     literal_eval := fun _ => Raise (ProviderError "malformed literal");
     str_float := show_float;
     str_value := fun _ => "" |}.

(** The places provider lists one place, and has one tip for it. *)
Definition places_answer (url : string) : Response :=
  if String.eqb url FSQ_PLACE_SEARCH_URL
  then {| status_code := 200;
          json := Ok (VDict [("results",
                              VList [VDict [("name", VStr "Shaniwar Wada");
                                            ("fsq_id", VStr "4b0587")]])]) |}
  else {| status_code := 200;
          json := Ok (VList [VDict [("text", VStr "A fort worth a visit.")]]) |}.

(** Everything works, but [FSQ_API_KEY] is not set. *)
Definition no_places_key : World :=
  {| environ := fun name =>
                  if String.eqb name "BING_API_KEY" then Some "K" else None;
     geocoding_rate_limiter := fun _ _ => Ok (Some pune);
     requests_get := fun _ url _ _ => Ok (places_answer url);
     urlopen_read := fun _ _ => Raise (ProviderError "unreachable");
     json_loads := fun _ => Raise (ProviderError "not JSON");
     literal_eval := fun _ => Raise (ProviderError "malformed literal");
     str_float := show_float;
     str_value := fun _ => "" |}.

(** The credential is set and the places provider answers every request
    with status 500. *)
Definition places_down : World :=
  {| environ := fun name =>
                  if String.eqb name "FSQ_API_KEY" then Some "fsq-key" else None;
     geocoding_rate_limiter := fun _ _ => Ok (Some pune);
     requests_get := fun _ _ _ _ =>
                       Ok {| status_code := 500;
                             json := Raise (ProviderError "not JSON") |};
     urlopen_read := fun _ _ => Raise (ProviderError "unreachable");
     json_loads := fun _ => Raise (ProviderError "not JSON");
     literal_eval := fun _ => Raise (ProviderError "malformed literal");
     str_float := show_float;
     str_value := fun _ => "" |}.

(** The credential is set and the places provider works. *)
Definition places_up : World :=
  {| environ := fun name =>
                  if String.eqb name "FSQ_API_KEY" then Some "fsq-key" else None;
     geocoding_rate_limiter := fun _ _ => Ok (Some pune);
     requests_get := fun _ url _ _ => Ok (places_answer url);
     urlopen_read := fun _ _ => Raise (ProviderError "unreachable");
     json_loads := fun _ => Raise (ProviderError "not JSON");
     literal_eval := fun _ => Raise (ProviderError "malformed literal");
     str_float := show_float;
     str_value := fun _ => "" |}.

(** One itinerary step as the routing provider describes it. *)
Definition itinerary_step (text : string) (lat lon : Z) : value :=
  VDict [("instruction", VDict [("text", VStr text)]);
         ("maneuverPoint", VDict [("coordinates", VList [VInt lat; VInt lon])])].

(** The routing provider's answer: a route of two steps. *)
Definition route_answer : value :=
  VDict [("resourceSets",
          VList [VDict [("resources",
            VList [VDict [("routeLegs",
              VList [VDict [("itineraryItems",
                VList [itinerary_step "Head north" 1 2;
                       itinerary_step "Arrive at Pune" 3 4])]])]])]])].

(** The routing credential is ["K"] and the routing provider answers every
    request with [route_answer]. *)
Definition routing_up : World :=
  {| environ := fun name =>
                  if String.eqb name "BING_API_KEY" then Some "K" else None;
     geocoding_rate_limiter := fun _ _ => Ok None;
     requests_get := fun _ _ _ _ => Raise (ProviderError "unreachable");
     urlopen_read := fun _ _ => Ok "body";
     json_loads := fun _ => Ok route_answer;
     literal_eval := fun _ => Raise (ProviderError "malformed literal");
     str_float := show_float;
     str_value := fun _ => "" |}.

End Samples.

Import Samples.

(* ================================================================== *)
(** ** Vocabulary of the further properties *)
(* ================================================================== *)

(** The request [get_fsq_info_of_location] sends for the place [fsq_id]. *)
Definition tips_request (w : World) (fsq_api_key : string) (fsq_id : value) : event :=
  RequestsGet (FSQ_PLACE_INFO_URL (format_arg w fsq_id)) (fsq_headers fsq_api_key)
    [("sort", VStr "POPULAR"); ("limit", VInt 2)].

(** The search request with the fixed radius the places tool uses. *)
Definition search_params (w : World) (lat lon : float64) (radius : Z)
    : list (string * value) :=
  [("ll", VStr (str_float w lat ++ "," ++ str_float w lon));
   ("radius", VInt radius);
   ("sort", VStr "RELEVANCE");
   ("limit", VInt 10)].

(** [tip] is an object whose [text] is the string [txt]. *)
Definition has_text (tip : value) (txt : string) : Prop :=
  getitem tip "text" = Ok (VStr txt).

(** [place] is an object with the given [name] and [fsq_id] fields. *)
Definition has_name_and_id (place : value) (p : value * value) : Prop :=
  getitem place "name" = Ok (fst p) /\ getitem place "fsq_id" = Ok (snd p).

(** The line of the places answer for a place called [name] with the tips
    [texts]. *)
Definition place_line (name : string) (texts : list string) : string :=
  name ++ ": " ++ join " " texts.

(** One step of the generator in [get_places_of_interests]: the enrichment
    of one place of the search answer. *)
Definition describe_place (w : World) (place : value) : M value :=
  name <- lift (getitem place "name") ;;
  fsq_id <- lift (getitem place "fsq_id") ;;
  get_fsq_info_of_location w name fsq_id.

(** A place of the search answer as the properties see it: its name, its
    identifier and the texts of its tips. *)
Record place_info : Type := mkPlace {
  place_name : string;
  place_id : string;
  place_tips : list string
}.

(** The tips provider answers the request for [p], whenever it is made,
    with status 200 and the tips of [p]. *)
Definition tips_served (w : World) (key : string) (p : place_info) : Prop :=
  forall h, exists response tips,
    requests_get w h (FSQ_PLACE_INFO_URL (place_id p)) (fsq_headers key)
      [("sort", VStr "POPULAR"); ("limit", VInt 2)] = Ok response
    /\ status_code response = 200%Z
    /\ json response = Ok (VList tips)
    /\ Forall2 has_text tips (place_tips p).

(** The tips provider refuses the request for the place [fsq_id], whenever
    it is made: it answers with a status other than 200. *)
Definition tips_refused (w : World) (key : string) (fsq_id : value) : Prop :=
  forall h, exists response,
    requests_get w h (FSQ_PLACE_INFO_URL (format_arg w fsq_id)) (fsq_headers key)
      [("sort", VStr "POPULAR"); ("limit", VInt 2)] = Ok response
    /\ status_code response <> 200%Z.

(** The object is [None] or a string. *)
Definition none_or_str (v : value) : Prop :=
  v = VNone \/ exists s, v = VStr s.

(** Every character of [s] passes the test [ok]. *)
Fixpoint all_chars (ok : ascii -> bool) (s : string) : bool :=
  match s with
  | EmptyString => true
  | String c t => ok c && all_chars ok t
  end.

(** What may occur in a quoted string: an unreserved character or the
    percent sign. *)
Definition quoted_char (c : ascii) : bool :=
  unreserved c || (nat_of_ascii c =? 37).

(** The characters that delimit the parts of a query string. *)
Definition delimiter (c : ascii) : bool :=
  let n := nat_of_ascii c in
  (n =? 38) || (n =? 61) || (n =? 63) || (n =? 35) || (n =? 47) || (n =? 32).

(** [l1] is an initial segment of [l2]. *)
Definition is_prefix {A} (l1 l2 : list A) : Prop :=
  exists rest, l2 = (l1 ++ rest)%list.

(** An itinerary step [get_route] can use: its instruction has a string
    [text] and its maneuver point has [coordinates]. *)
Definition well_formed_step (item : value) : Prop :=
  (exists text, step_text item = Ok (VStr text))
  /\ (exists c, step_coordinates item = Ok c).

(** The message of the error [get_route] raises without its credential. *)
Definition bing_key_missing : exn :=
  ValueError "Bing API key must be set in environment variables.".

(** The record [on_tool_end] appends for a list of coordinates, the same
    record once the script has given it a render key, and the two kinds of
    chat messages. *)
Definition route_record (points : list value) : value :=
  VDict [("geocode_points", VList points)].
Definition keyed_route_record (points : list value) (figure_key : string) : value :=
  VDict [("geocode_points", VList points); ("figure_key", VStr figure_key)].
Definition assistant_message (response : string) : value :=
  VDict [("role", VStr "assistant"); ("content", VStr response)].
Definition user_message (prompt : string) : value :=
  VDict [("role", VStr "user"); ("content", VStr prompt)].

(** A message that carries coordinates and has no render key. *)
Definition unkeyed (message : value) : Prop :=
  exists d, message = VDict d
            /\ dict_has d "geocode_points" = true
            /\ dict_get d "figure_key" = None.

(** The log the script works on once the prompt, if any, is appended. *)
Definition with_prompt (l : list value) (prompt : option string) : list value :=
  match prompt with
  | Some (String c p) => (l ++ [user_message (String c p)])%list
  | _ => l
  end.

Module MoreSamples.

(** The one place of [places_answer], with its tip. *)
Definition shaniwar_wada : place_info :=
  {| place_name := "Shaniwar Wada";
     place_id := "4b0587";
     place_tips := ["A fort worth a visit."] |}.

(** The search lists two places; the tips provider answers for the first
    and refuses the request for the second. *)
Definition two_places : list value :=
  [VDict [("name", VStr "Shaniwar Wada"); ("fsq_id", VStr "4b0587")];
   VDict [("name", VStr "Aga Khan Palace"); ("fsq_id", VStr "5c1234")]].

Definition second_tips_refused (url : string) : Response :=
  if String.eqb url FSQ_PLACE_SEARCH_URL
  then {| status_code := 200; json := Ok (VDict [("results", VList two_places)]) |}
  else if String.eqb url (FSQ_PLACE_INFO_URL "5c1234")
  then {| status_code := 503; json := Raise (ProviderError "not JSON") |}
  else {| status_code := 200;
          json := Ok (VList [VDict [("text", VStr "A fort worth a visit.")]]) |}.

Definition tips_flaky : World :=
  {| environ := fun name =>
                  if String.eqb name "FSQ_API_KEY" then Some "fsq-key" else None;
     geocoding_rate_limiter := fun _ _ => Ok (Some pune);
     requests_get := fun _ url _ _ => Ok (second_tips_refused url);
     urlopen_read := fun _ _ => Raise (ProviderError "unreachable");
     json_loads := fun _ => Raise (ProviderError "not JSON");
     literal_eval := fun _ => Raise (ProviderError "malformed literal");
     str_float := show_float;
     str_value := fun _ => "" |}.

(** A stand-in for folium: a map is its centre and the line drawn on it. *)
Definition drawn : Type := (value * value)%type.
Definition sample_Map (location : value) (zoom_start : Z) (tiles : string)
    : result drawn :=
  Ok (location, VNone).
Definition sample_polyline (m : drawn) (route : value) : result drawn :=
  Ok (fst m, route).

(** A conversation in which the user has just asked for a route. *)
Definition asked : list value :=
  (greeting ++ [user_message "Route from Mumbai to Pune"])%list.

Definition leg_a : list value := [VList [VInt 1; VInt 2]; VList [VInt 3; VInt 4]].
Definition leg_b : list value := [VList [VInt 5; VInt 6]].

(** Agent runs, by what their tool calls leave in the log: one route, two
    routes, a route without steps. *)
Definition agent_one_route (prompt : option string) (l : list value)
    : result string * list value :=
  (Ok "Here is your route.", (l ++ [route_record leg_a])%list).
Definition agent_two_routes (prompt : option string) (l : list value)
    : result string * list value :=
  (Ok "Here are both routes.", (l ++ [route_record leg_a; route_record leg_b])%list).
Definition agent_empty_route (prompt : option string) (l : list value)
    : result string * list value :=
  (Ok "Here is your route.", (l ++ [route_record []])%list).

(** The routing provider answers with an itinerary without steps. *)
Definition no_steps_answer : value :=
  VDict [("resourceSets",
          VList [VDict [("resources",
            VList [VDict [("routeLegs",
              VList [VDict [("itineraryItems", VList [])]])]])]])].

Definition routing_no_steps : World :=
  {| environ := fun name =>
                  if String.eqb name "BING_API_KEY" then Some "K" else None;
     geocoding_rate_limiter := fun _ _ => Ok None;
     requests_get := fun _ _ _ _ => Raise (ProviderError "unreachable");
     urlopen_read := fun _ _ => Ok "body";
     json_loads := fun _ => Ok no_steps_answer;
     literal_eval := fun _ => Raise (ProviderError "malformed literal");
     str_float := show_float;
     str_value := fun _ => "" |}.

End MoreSamples.

Import MoreSamples.

(** Turn the outcome of a boolean test into the fact it decides. *)
Ltac decide_tests :=
  repeat match goal with
         | H : true = true <-> ?P |- _ =>
             let H' := fresh in
             assert (H' : P) by (apply H; reflexivity); clear H
         | H : false = true <-> ?P |- _ =>
             let H' := fresh in
             assert (H' : ~ P) by (let X := fresh in intro X; apply H in X; discriminate X);
             clear H
         end.

(* ================================================================== *)
(** ** Strings: membership, lower-casing, trimming *)
(* ================================================================== *)

Lemma append_assoc (a b c : string) : (a ++ b) ++ c = a ++ b ++ c.
Proof. induction a as [|x a IH]; simpl; [reflexivity | now rewrite IH]. Qed.

Lemma append_empty_r (a : string) : a ++ "" = a.
Proof. induction a as [|x a IH]; simpl; [reflexivity | now rewrite IH]. Qed.

Lemma prefix_iff (p s : string) :
  String.prefix p s = true <-> exists t, s = p ++ t.
Proof.
  revert p. induction s as [|c s IH]; intros [|a p]; simpl.
  - split; [exists ""; reflexivity | reflexivity].
  - split; [discriminate | intros [t H]; discriminate].
  - split; [exists (String c s); reflexivity | reflexivity].
  - destruct (ascii_dec a c) as [->|Hne].
    + rewrite IH. split; intros [t H]; exists t; [now rewrite H | now inversion H].
    + split; [discriminate | intros [t H]; simpl in H; inversion H; congruence].
Qed.

Lemma str_contains_iff (needle hay : string) :
  str_contains needle hay = true <-> exists a b, hay = a ++ needle ++ b.
Proof.
  induction hay as [|c hay IH]; cbn [str_contains].
  - rewrite prefix_iff. split.
    + intros [t H]. exists "", t. exact H.
    + intros [[|x a] [b H]]; [exists b; exact H | discriminate].
  - rewrite orb_true_iff, IH, prefix_iff. split.
    + intros [[t H] | [a [b H]]].
      * exists "", t. exact H.
      * exists (String c a), b. simpl. now rewrite H.
    + intros [[|x a] [b H]].
      * left. exists b. exact H.
      * right. simpl in H. inversion H. exists a, b. reflexivity.
Qed.

Lemma lower_append (a b : string) : lower (a ++ b) = lower a ++ lower b.
Proof. induction a as [|x a IH]; simpl; [reflexivity | now rewrite IH]. Qed.

Lemma lower_split (s x y : string) :
  lower s = x ++ y -> exists s1 s2, s = s1 ++ s2 /\ lower s1 = x /\ lower s2 = y.
Proof.
  revert s. induction x as [|c x IH]; intros s H; simpl in H.
  - exists "", s. auto.
  - destruct s as [|d s]; simpl in H; [discriminate|].
    inversion H as [[Hc Hs]]. destruct (IH _ Hs) as (s1 & s2 & -> & H1 & H2).
    exists (String d s1), s2. simpl. rewrite H1. auto.
Qed.

Lemma contains_lower_iff (kw s : string) :
  str_contains kw (lower s) = true <-> ci_occurs kw s.
Proof.
  rewrite str_contains_iff. unfold ci_occurs. split.
  - intros (a & b & H).
    destruct (lower_split _ _ _ H) as (s1 & s2 & -> & H1 & H2).
    destruct (lower_split _ _ _ H2) as (m & s3 & -> & H3 & H4).
    exists s1, m, s3. auto.
  - intros (a & m & b & -> & Hm).
    exists (lower a), (lower b). now rewrite !lower_append, Hm.
Qed.

(* ================================================================== *)
(** ** Transport-mode normalization *)
(* ================================================================== *)

Import RouteRetriever.

Lemma walking_test (s : string) :
  str_contains "foot" (lower s) || str_contains "walk" (lower s) = true
  <-> says_walking s.
Proof. unfold says_walking. now rewrite orb_true_iff, !contains_lower_iff. Qed.

Lemma transit_test (s : string) :
  str_contains "public" (lower s) || str_contains "bus" (lower s)
  || str_contains "train" (lower s) || str_contains "transit" (lower s) = true
  <-> says_transit s.
Proof.
  unfold says_transit. rewrite !orb_true_iff, !contains_lower_iff. tauto.
Qed.

Lemma detect_transportation_mode_cases (s : string) :
  detect_transportation_mode s =
    if str_contains "foot" (lower s) || str_contains "walk" (lower s)
    then "Walking"
    else if str_contains "cycle" (lower s) then "bicycle"
    else if str_contains "public" (lower s) || str_contains "bus" (lower s)
            || str_contains "train" (lower s) || str_contains "transit" (lower s)
    then "Transit" else "Driving".
Proof. reflexivity. Qed.

(** C4. Transport-mode normalization is a function of its argument alone,
    decided by case-insensitive occurrence of the keywords in a fixed
    priority order: "foot" or "walk" gives Walking; otherwise "cycle" gives
    bicycle; otherwise "public", "bus", "train" or "transit" gives Transit;
    every other string, the empty one included, gives Driving.  The five
    sample inputs of the specification give Walking, bicycle, Transit,
    Driving and Driving. *)
Theorem detect_transportation_mode_priority :
  (forall s,
     (detect_transportation_mode s = "Walking" <-> says_walking s)
     /\ (detect_transportation_mode s = "bicycle"
         <-> ~ says_walking s /\ says_cycle s)
     /\ (detect_transportation_mode s = "Transit"
         <-> ~ says_walking s /\ ~ says_cycle s /\ says_transit s)
     /\ (detect_transportation_mode s = "Driving"
         <-> ~ says_walking s /\ ~ says_cycle s /\ ~ says_transit s))
  /\ detect_transportation_mode "I want to WALK there" = "Walking"
  /\ detect_transportation_mode "by bicycle" = "bicycle"
  /\ detect_transportation_mode "take the bus" = "Transit"
  /\ detect_transportation_mode "drive" = "Driving"
  /\ detect_transportation_mode "" = "Driving".
Proof.
  split; [| repeat split; reflexivity].
  intro s. rewrite detect_transportation_mode_cases.
  pose proof (walking_test s) as HW.
  pose proof (contains_lower_iff "cycle" s) as HC. fold (says_cycle s) in HC.
  pose proof (transit_test s) as HT.
  destruct (str_contains "foot" (lower s) || str_contains "walk" (lower s));
  destruct (str_contains "cycle" (lower s));
  destruct (str_contains "public" (lower s) || str_contains "bus" (lower s)
            || str_contains "train" (lower s) || str_contains "transit" (lower s));
  decide_tests; repeat split; intros; try discriminate; tauto.
Qed.

(* ================================================================== *)
(** ** The tool-completion callback *)
(* ================================================================== *)

Lemma dict_get_set_same (d : dict) (k : string) (v : value) :
  dict_get (dict_set d k v) k = Some v.
Proof.
  induction d as [|[k' v'] d IH]; simpl.
  - now rewrite String.eqb_refl.
  - destruct (String.eqb k' k) eqn:E; simpl; now rewrite E.
Qed.

Lemma dict_get_set_other (d : dict) (k k' : string) (v : value) :
  k' <> k -> dict_get (dict_set d k v) k' = dict_get d k'.
Proof.
  intro Hne. induction d as [|[k0 v0] d IH]; simpl.
  - destruct (String.eqb k k') eqn:E; [|reflexivity].
    apply String.eqb_eq in E. congruence.
  - destruct (String.eqb k0 k) eqn:E; simpl.
    + apply String.eqb_eq in E. subst k0.
      destruct (String.eqb k k') eqn:E'; [|reflexivity].
      apply String.eqb_eq in E'. congruence.
    + now rewrite IH.
Qed.

Lemma dict_set_keys (d : dict) (k : string) (v x : value) :
  dict_get d k = Some x -> map fst (dict_set d k v) = map fst d.
Proof.
  induction d as [|[k' v'] d IH]; simpl; [discriminate|].
  destruct (String.eqb k' k); simpl; [reflexivity|].
  intro H. now rewrite IH.
Qed.

(** C1. When the output of a tool is a dict whose [geocode_points] is a
    non-empty list, [on_tool_end] appends exactly one record to the session
    message log, holding a copy of that list under [geocode_points], and
    returns the envelope it was given with [geocode_points] replaced by the
    empty string; every other field, [output] among them, keeps its value
    and the fields keep their order. *)
Theorem on_tool_end_strips_points
    (base : value -> value) (messages : list value) (d : dict)
    (points : list value) :
  dict_get d "geocode_points" = Some (VList points) ->
  points <> [] ->
  let r := on_tool_end base messages (VDict d) in
  messages_after r = (messages ++ [VDict [("geocode_points", VList points)]])%list
  /\ exists d',
      returned r = Ok (VDict d')
      /\ output_after r = VDict d'
      /\ dict_get d' "geocode_points" = Some (VStr "")
      /\ dict_get d' "output" = dict_get d "output"
      /\ (forall k, k <> "geocode_points" -> dict_get d' k = dict_get d k)
      /\ map fst d' = map fst d.
Proof.
  intros Hget Hne r. subst r. unfold on_tool_end. rewrite Hget. simpl.
  split; [reflexivity|].
  exists (dict_set d "geocode_points" (VStr "")).
  repeat split.
  - apply dict_get_set_same.
  - apply dict_get_set_other. discriminate.
  - intros k Hk. now apply dict_get_set_other.
  - eapply dict_set_keys. exact Hget.
Qed.

Lemma on_tool_end_strips_points_sample :
  let r := on_tool_end (fun _ => VNone) greeting (VDict sample_route_envelope) in
  messages_after r =
    (greeting ++ [VDict [("geocode_points",
                          VList [VList [VInt 1; VInt 2]; VList [VInt 3; VInt 4]])]])%list
  /\ exists d',
      returned r = Ok (VDict d')
      /\ output_after r = VDict d'
      /\ dict_get d' "geocode_points" = Some (VStr "")
      /\ dict_get d' "output" = dict_get sample_route_envelope "output"
      /\ (forall k, k <> "geocode_points" ->
                    dict_get d' k = dict_get sample_route_envelope k)
      /\ map fst d' = map fst sample_route_envelope.
Proof.
  apply (on_tool_end_strips_points (fun _ => VNone) greeting sample_route_envelope
           [VList [VInt 1; VInt 2]; VList [VInt 3; VInt 4]]).
  - reflexivity.
  - discriminate.
Defined.

(** C2, as stated, fails: an envelope whose [geocode_points] is present but
    empty is not passed through.  Even with a base handler that hands the
    envelope back, the log gains a record and the field is overwritten. *)
Lemma on_tool_end_empty_points_not_forwarded :
  let output := VDict [("output", VStr "text"); ("geocode_points", VList [])] in
  let r := on_tool_end (fun v => v) greeting output in
  messages_after r = (greeting ++ [VDict [("geocode_points", VList [])]])%list
  /\ messages_after r <> greeting
  /\ returned r = Ok (VDict [("output", VStr "text"); ("geocode_points", VStr "")])
  /\ returned r <> Ok output.
Proof.
  cbv zeta. repeat split; try reflexivity; discriminate.
Qed.

(** C2, amended. When the output of a tool is not a dict, or is a dict whose
    [geocode_points] is absent or [None], [on_tool_end] appends nothing to
    the session message log, leaves the envelope as it is, and returns what
    the framework's base handler returns for that same envelope. *)
Theorem on_tool_end_forwards
    (base : value -> value) (messages : list value) (output : value) :
  no_geocode_points output ->
  on_tool_end base messages output =
    {| messages_after := messages;
       output_after := output;
       returned := Ok (base output) |}.
Proof.
  destruct output as [| | | | |l|d]; try reflexivity.
  simpl. intros [H|H]; rewrite H; reflexivity.
Qed.

Lemma on_tool_end_forwards_text_only :
  no_geocode_points (VDict [("output", VStr "text")])
  /\ on_tool_end (fun _ => VNone) greeting (VDict [("output", VStr "text")]) =
       {| messages_after := greeting;
          output_after := VDict [("output", VStr "text")];
          returned := Ok VNone |}.
Proof.
  split.
  - left. reflexivity.
  - apply (on_tool_end_forwards (fun _ => VNone) greeting
             (VDict [("output", VStr "text")])).
    left. reflexivity.
Defined.

(* ================================================================== *)
(** ** The geocoder adapter *)
(* ================================================================== *)







Lemma get_location_data_trace (w : World) (location : string) (t : trace) :
  snd (get_location_data w location t) = (t ++ [Geocode (location_query location)])%list.
Proof.
  unfold get_location_data, try_except, bind, call, ret, raise.
  destruct (geocoding_rate_limiter w t (location_query location)) as [[d|]|e];
    reflexivity.
Qed.



(** C8, as stated, fails: the error raised for a query without a match is
    the plain [Exception] with a fixed message.  The query is not part of
    it, and two different queries fail with the very same error. *)
Lemma location_not_found_has_no_query :
  fst (get_location_data offline "Atlantis" []) =
    Raise (Exception "Location not found. Please refine your query.")
  /\ str_contains "Atlantis" "Location not found. Please refine your query." = false
  /\ fst (get_location_data offline "El Dorado" []) =
       fst (get_location_data offline "Atlantis" []).
Proof. repeat split; reflexivity. Qed.

(** C8, amended. When the geocoding provider has no match for the query it
    is given, [get_location_data] makes that one geocoding call and fails:
    it raises an [Exception] whose message is the fixed text "Location not
    found. Please refine your query.", whatever the query was. *)
Theorem get_location_data_not_found (w : World) (location : string) (t : trace) :
  geocoding_rate_limiter w t (location_query location) = Ok None ->
  get_location_data w location t =
    (Raise (Exception "Location not found. Please refine your query."),
     (t ++ [Geocode (location_query location)])%list).
Proof.
  intro H. unfold get_location_data, try_except, bind, call, ret, raise.
  rewrite H. reflexivity.
Qed.

Lemma get_location_data_not_found_atlantis :
  get_location_data offline "location=Atlantis" [] =
    (Raise (Exception "Location not found. Please refine your query."),
     [Geocode "Atlantis"]).
Proof.
  apply (get_location_data_not_found offline "location=Atlantis" []).
  reflexivity.
Defined.

Lemma get_location_data_found (w : World) (location : string) (t : trace)
    (details : Location) :
  geocoding_rate_limiter w t (location_query location) = Ok (Some details) ->
  get_location_data w location t =
    (Ok details, (t ++ [Geocode (location_query location)])%list).
Proof.
  intro H. unfold get_location_data, try_except, bind, call, ret, raise.
  rewrite H. reflexivity.
Qed.

(* ================================================================== *)
(** ** The places-of-interest tool *)
(* ================================================================== *)

Lemma get_places_of_interests_no_key (w : World) (lat lon : float64) (radius : Z)
    (t : trace) :
  environ w "FSQ_API_KEY" = None ->
  get_places_of_interests w lat lon radius t = (Ok VNone, t).
Proof.
  intro H. unfold get_places_of_interests, try_except. rewrite H. reflexivity.
Qed.

Lemma get_places_of_interests_bad_status (w : World) (lat lon : float64)
    (radius : Z) (t : trace) (fsq_api_key : string) (response : Response) :
  environ w "FSQ_API_KEY" = Some fsq_api_key ->
  requests_get w t FSQ_PLACE_SEARCH_URL (fsq_headers fsq_api_key)
    [("ll", VStr (str_float w lat ++ "," ++ str_float w lon));
     ("radius", VInt radius);
     ("sort", VStr "RELEVANCE");
     ("limit", VInt 10)] = Ok response ->
  status_code response <> 200%Z ->
  get_places_of_interests w lat lon radius t =
    (Ok VNone, (t ++ [places_search w fsq_api_key lat lon radius])%list).
Proof.
  intros Hkey Hget Hstatus.
  unfold get_places_of_interests, try_except, bind, call. rewrite Hkey, Hget.
  destruct (Z.eqb_spec (status_code response) 200) as [E|E]; [contradiction|].
  reflexivity.
Qed.

(** Without the credential no request goes to the places provider, whether
    the geocoder resolves the location or not: the geocoding call is the
    only call that leaves the process. *)
Lemma places_tool_no_key_trace (w : World) (location : string) (t : trace) :
  environ w "FSQ_API_KEY" = None ->
  snd (PlacesOfInterestTool._run w location t) =
    (t ++ [Geocode (location_query location)])%list.
Proof.
  intro Hkey. unfold PlacesOfInterestTool._run, bind.
  pose proof (get_location_data_trace w location t) as Ht.
  destruct (get_location_data w location t) as [[details|e] t'];
    simpl in Ht; subst t'; [|reflexivity].
  rewrite get_places_of_interests_no_key by exact Hkey. reflexivity.
Qed.

(** C6: what the code does when the places credential is missing.  With
    [FSQ_API_KEY] unset and a location the geocoder resolves, the places
    tool does not fail: the [ValueError] raised for the missing credential
    is caught inside [get_places_of_interests], and the tool returns the
    envelope whose [output] is [None].  The only call that left the process
    is the geocoding call; no request went to the places provider. *)
Theorem places_tool_missing_credential_swallowed
    (w : World) (location : string) (t : trace) (details : Location) :
  environ w "FSQ_API_KEY" = None ->
  geocoding_rate_limiter w t (location_query location) = Ok (Some details) ->
  PlacesOfInterestTool._run w location t =
    (Ok (VDict [("output", VNone)]),
     (t ++ [Geocode (location_query location)])%list).
Proof.
  intros Hkey Hgeo. unfold PlacesOfInterestTool._run, bind.
  rewrite (get_location_data_found _ _ _ _ Hgeo).
  rewrite get_places_of_interests_no_key by exact Hkey. reflexivity.
Qed.

Lemma places_tool_missing_credential_pune :
  PlacesOfInterestTool._run no_places_key "Pune" [] =
    (Ok (VDict [("output", VNone)]), [Geocode "Pune"]).
Proof.
  apply (places_tool_missing_credential_swallowed no_places_key "Pune" [] pune);
    reflexivity.
Defined.

(** C7: what the code does when the places search is refused.  With the
    credential set, a resolved location and a search answered with a status
    other than 200, the places tool does not fail: the [Exception] raised
    for the status is caught inside [get_places_of_interests], and the tool
    returns the envelope whose [output] is [None]. *)
Theorem places_tool_bad_status_swallowed
    (w : World) (location : string) (t : trace) (details : Location)
    (fsq_api_key : string) (response : Response) :
  environ w "FSQ_API_KEY" = Some fsq_api_key ->
  geocoding_rate_limiter w t (location_query location) = Ok (Some details) ->
  requests_get w (t ++ [Geocode (location_query location)])%list
    FSQ_PLACE_SEARCH_URL (fsq_headers fsq_api_key)
    [("ll", VStr (str_float w (latitude details) ++ "," ++
                  str_float w (longitude details)));
     ("radius", VInt RADIUS);
     ("sort", VStr "RELEVANCE");
     ("limit", VInt 10)] = Ok response ->
  status_code response <> 200%Z ->
  PlacesOfInterestTool._run w location t =
    (Ok (VDict [("output", VNone)]),
     (t ++ [Geocode (location_query location);
            places_search w fsq_api_key (latitude details) (longitude details)
                          RADIUS])%list).
Proof.
  intros Hkey Hgeo Hget Hstatus. unfold PlacesOfInterestTool._run, bind.
  rewrite (get_location_data_found _ _ _ _ Hgeo).
  rewrite (get_places_of_interests_bad_status _ _ _ _ _ _ _ Hkey Hget Hstatus).
  rewrite <- app_assoc. reflexivity.
Qed.

Lemma places_tool_bad_status_pune :
  PlacesOfInterestTool._run places_down "Pune" [] =
    (Ok (VDict [("output", VNone)]),
     [Geocode "Pune";
      RequestsGet "https://api.foursquare.com/v3/places/search"
        [("accept", "application/json"); ("Authorization", "fsq-key")]
        [("ll", VStr "18.52,73.85"); ("radius", VInt 100000);
         ("sort", VStr "RELEVANCE"); ("limit", VInt 10)]]).
Proof.
  apply (places_tool_bad_status_swallowed places_down "Pune" [] pune "fsq-key"
           {| status_code := 500; json := Raise (ProviderError "not JSON") |}).
  - reflexivity.
  - reflexivity.
  - reflexivity.
  - discriminate.
Defined.

(* ================================================================== *)
(** ** The route tool: the request *)
(* ================================================================== *)

Lemma join_amp (p : string) (rest : list string) :
  join "&" (p :: rest) = p ++ amp_all rest.
Proof.
  revert p. induction rest as [|q rest IH]; intro p.
  - simpl. now rewrite append_empty_r.
  - change (join "&" (p :: q :: rest)) with (p ++ "&" ++ join "&" (q :: rest)).
    rewrite IH. reflexivity.
Qed.

Lemma add_waypoints_later (url : string) (i : nat) (locs : list string) :
  add_waypoints url (S i) (map VStr locs) =
    Ok (url ++ amp_all (waypoint_params (S i) locs)).
Proof.
  revert url i. induction locs as [|loc locs IH]; intros url i.
  - simpl. now rewrite append_empty_r.
  - cbn [map add_waypoints Nat.eqb]. rewrite IH.
    cbn [waypoint_params amp_all]. unfold waypoint_param.
    f_equal. rewrite !append_assoc. reflexivity.
Qed.

Lemma add_waypoints_strings (url : string) (locs : list string) :
  add_waypoints url 0 (map VStr locs) =
    Ok (url ++ join "&" (waypoint_params 0 locs)).
Proof.
  destruct locs as [|loc locs].
  - simpl. now rewrite append_empty_r.
  - cbn [map add_waypoints Nat.eqb]. rewrite add_waypoints_later.
    cbn [waypoint_params]. rewrite join_amp. unfold waypoint_param.
    f_equal. rewrite !append_assoc. reflexivity.
Qed.



(** What [get_route] does once the credential is there and the URL is
    built: one request, and the provider's answer turned into an envelope
    or into a [ConnectionError]. *)
Lemma get_route_eq (w : World) (locations : value) (mode : string) (t : trace)
    (key : string) (locs : list value) (url : string) :
  environ w "BING_API_KEY" = Some key ->
  key <> "" ->
  iterate locations = Ok locs ->
  add_waypoints (ROUTE_URL mode) 0 locs = Ok url ->
  get_route w locations mode t =
    (match parse_route w t (url ++ "&key=" ++ key) with
     | Ok route => Ok route
     | Raise e => Raise (ConnectionError e)
     end,
     (t ++ [UrlOpen (url ++ "&key=" ++ key)])%list).
Proof.
  intros Hkey Hne Hit Hadd. unfold get_route. rewrite Hkey.
  destruct key as [|c key]; [congruence|].
  unfold bind, lift, try_except, call, ret, raise. rewrite Hit, Hadd.
  unfold parse_route, provider_itinerary, rbind.
  destruct (urlopen_read w t _) as [r|e]; [|reflexivity].
  destruct (json_loads w r) as [res|e]; [|reflexivity].
  destruct (itinerary_of res) as [its|e]; [|reflexivity].
  destruct (iterate its) as [items|e]; [|reflexivity].
  destruct (collect_itinerary items [] []) as [[ds ps]|e]; reflexivity.
Qed.

Lemma get_route_request (w : World) (locs : list string) (mode key : string)
    (t : trace) :
  environ w "BING_API_KEY" = Some key ->
  key <> "" ->
  snd (get_route w (VList (map VStr locs)) mode t) =
    (t ++ [UrlOpen (route_request_url mode locs key)])%list.
Proof.
  intros Hkey Hne.
  rewrite (get_route_eq w (VList (map VStr locs)) mode t key (map VStr locs) _
             Hkey Hne eq_refl
             (add_waypoints_strings _ locs)).
  unfold route_request_url. simpl snd. now rewrite append_assoc.
Qed.

Lemma key_K_not_empty : "K" <> "".
Proof. discriminate. Qed.



(** C9. A dict without [transportation_mode] is routed as if the mode were
    the literal "car", which normalizes to Driving: the tool does what
    [get_route] does with the path segment Driving.  A dict without
    [locations] is routed with the single waypoint [""]: with the routing
    credential set, the request is sent, and its URL has the one, empty
    waypoint parameter wp.0. *)
Theorem route_tool_defaults (w : World) (d : dict) (t : trace) :
  detect_transportation_mode "car" = "Driving"
  /\ (dict_get d "transportation_mode" = None ->
      RouteRetriever._run w (VDict d) t =
        get_route w (match dict_get d "locations" with
                     | Some v => v
                     | None => VList [VStr ""]
                     end) "Driving" t)
  /\ (dict_get d "locations" = None ->
      forall tm key,
        dict_get d "transportation_mode" = Some (VStr tm)
        \/ (dict_get d "transportation_mode" = None /\ tm = "car") ->
        environ w "BING_API_KEY" = Some key ->
        key <> "" ->
        RouteRetriever._run w (VDict d) t =
          get_route w (VList [VStr ""]) (detect_transportation_mode tm) t
        /\ snd (RouteRetriever._run w (VDict d) t) =
             (t ++ [UrlOpen (ROUTE_URL (detect_transportation_mode tm)
                             ++ "wp.0=" ++ "&key=" ++ key)])%list).
Proof.
  split; [reflexivity|]. split.
  - intro Hmode. unfold RouteRetriever._run, bind, ret. rewrite Hmode.
    reflexivity.
  - intros Hloc tm key Hmode Hkey Hne.
    assert (E : RouteRetriever._run w (VDict d) t =
                get_route w (VList [VStr ""]) (detect_transportation_mode tm) t).
    { unfold RouteRetriever._run, bind, ret. rewrite Hloc.
      destruct Hmode as [-> | [-> ->]]; reflexivity. }
    split; [exact E|]. rewrite E.
    apply (get_route_request w [""] (detect_transportation_mode tm) key t Hkey Hne).
Qed.

Lemma route_tool_defaults_empty_dict :
  RouteRetriever._run routing_up (VDict []) [] =
    get_route routing_up (VList [VStr ""]) "Driving" []
  /\ snd (RouteRetriever._run routing_up (VDict []) []) =
       [UrlOpen "http://dev.virtualearth.net/REST/V1/Routes/Driving?wp.0=&key=K"].
Proof.
  split.
  - apply (proj1 (proj2 (route_tool_defaults routing_up [] []))). reflexivity.
  - apply (proj2 (proj2 (route_tool_defaults routing_up [] [])) eq_refl "car" "K").
    + right. split; reflexivity.
    + reflexivity.
    + exact key_K_not_empty.
Defined.

(* ================================================================== *)
(** ** The route tool: the answer *)
(* ================================================================== *)

Lemma collect_itinerary_spec (items : list value) :
  forall ds ps ds' ps',
    collect_itinerary items ds ps = Ok (ds', ps') ->
    exists nd np,
      ds' = (ds ++ nd)%list /\ ps' = (ps ++ np)%list
      /\ List.length nd = List.length items
      /\ List.length np = List.length items
      /\ (forall i item,
            nth_error items i = Some item ->
            exists text c,
              step_text item = Ok (VStr text)
              /\ nth_error nd i = Some ("- " ++ text)
              /\ step_coordinates item = Ok c
              /\ nth_error np i = Some c).
Proof.
  induction items as [|item items IH]; intros ds ps ds' ps' H.
  - simpl in H. injection H as <- <-.
    exists [], []. rewrite !app_nil_r. repeat split; auto.
    intros [|i] it Hi; discriminate Hi.
  - cbn [collect_itinerary] in H. unfold rbind in H.
    destruct (getitem item "instruction") as [ins|e] eqn:E1; [|discriminate].
    destruct (getitem ins "text") as [[| | | |text| |]|e] eqn:E2; try discriminate.
    destruct (getitem item "maneuverPoint") as [mp|e] eqn:E3; [|discriminate].
    destruct (getitem mp "coordinates") as [c|e] eqn:E4; [|discriminate].
    destruct (IH _ _ _ _ H) as (nd & np & -> & -> & Hnd & Hnp & Hall).
    exists (("- " ++ text)%string :: nd), (c :: np).
    rewrite <- !app_assoc. simpl. repeat split; auto.
    intros [|i] it Hi; simpl in Hi.
    + injection Hi as <-. exists text, c.
      unfold step_text, step_coordinates, rbind. rewrite E1, E2, E3, E4. auto.
    + apply Hall. exact Hi.
Qed.

(** Well-formed steps are always collected. *)
Lemma collect_itinerary_total (items : list value) :
  (forall item, In item items ->
     (exists text, step_text item = Ok (VStr text))
     /\ (exists c, step_coordinates item = Ok c)) ->
  forall ds ps, exists ds' ps', collect_itinerary items ds ps = Ok (ds', ps').
Proof.
  induction items as [|item items IH]; intros Hall ds ps.
  - exists ds, ps. reflexivity.
  - destruct (Hall item (or_introl eq_refl)) as [[text Ht] [c Hc]].
    unfold step_text, step_coordinates, rbind in Ht, Hc.
    cbn [collect_itinerary]. unfold rbind.
    destruct (getitem item "instruction") as [ins|e]; [|discriminate].
    rewrite Ht.
    destruct (getitem item "maneuverPoint") as [mp|e]; [|discriminate].
    rewrite Hc. apply IH. intros it Hit. apply Hall. now right.
Qed.

(** C3. Whenever [get_route] succeeds, the envelope it returns was built
    from the itinerary steps of the provider's answer to its one request:
    its [output] is the instructions joined by line feeds and its
    [geocode_points] the list of coordinates, there are as many instructions
    as coordinates as steps, and at every position i the instruction is the
    text of the i-th step behind the marker "- " and the coordinate entry is
    the maneuver point of that same step. *)
Theorem get_route_aligned
    (w : World) (locations : value) (mode : string) (t t' : trace) (route : value) :
  get_route w locations mode t = (Ok route, t') ->
  exists url items directions points,
    t' = (t ++ [UrlOpen url])%list
    /\ provider_itinerary w t url = Ok items
    /\ route = VDict [("output", VStr (join nl directions));
                      ("geocode_points", VList points)]
    /\ List.length directions = List.length points
    /\ List.length directions = List.length items
    /\ (forall i item,
          nth_error items i = Some item ->
          exists text c,
            step_text item = Ok (VStr text)
            /\ nth_error directions i = Some ("- " ++ text)
            /\ step_coordinates item = Ok c
            /\ nth_error points i = Some c).
Proof.
  intro H.
  destruct (environ w "BING_API_KEY") as [key|] eqn:Hkey;
    [|unfold get_route in H; rewrite Hkey in H; discriminate].
  destruct key as [|k0 key];
    [unfold get_route in H; rewrite Hkey in H; discriminate|].
  destruct (iterate locations) as [locs|e] eqn:Hit;
    [|unfold get_route, bind, lift in H; rewrite Hkey, Hit in H; discriminate].
  destruct (add_waypoints (ROUTE_URL mode) 0 locs) as [url|e] eqn:Hadd;
    [|unfold get_route, bind, lift in H; rewrite Hkey, Hit, Hadd in H; discriminate].
  rewrite (get_route_eq w locations mode t _ locs url Hkey) in H;
    [|discriminate|exact Hit|exact Hadd].
  injection H as Hr <-.
  unfold parse_route, rbind in Hr.
  destruct (provider_itinerary w t _) as [items|e] eqn:Hitems; [|discriminate].
  destruct (collect_itinerary items [] []) as [[ds ps]|e] eqn:Hc; [|discriminate].
  injection Hr as <-.
  destruct (collect_itinerary_spec _ _ _ _ _ Hc)
    as (nd & np & -> & -> & Hnd & Hnp & Hall).
  exists (url ++ "&key=" ++ String k0 key), items, nd, np.
  simpl. repeat split; auto. congruence.
Qed.

Lemma get_route_aligned_mumbai_pune :
  exists url items directions points,
    [UrlOpen "http://dev.virtualearth.net/REST/V1/Routes/Driving?wp.0=Mumbai&wp.1=Pune&key=K"]
      = ([] ++ [UrlOpen url])%list
    /\ provider_itinerary routing_up [] url = Ok items
    /\ VDict [("output", VStr (join nl ["- Head north"; "- Arrive at Pune"]));
              ("geocode_points", VList [VList [VInt 1; VInt 2]; VList [VInt 3; VInt 4]])]
       = VDict [("output", VStr (join nl directions));
                ("geocode_points", VList points)]
    /\ List.length directions = List.length points
    /\ List.length directions = List.length items
    /\ (forall i item,
          nth_error items i = Some item ->
          exists text c,
            step_text item = Ok (VStr text)
            /\ nth_error directions i = Some ("- " ++ text)
            /\ step_coordinates item = Ok c
            /\ nth_error points i = Some c).
Proof.
  apply (get_route_aligned routing_up (VList [VStr "Mumbai"; VStr "Pune"])
           "Driving" []).
  reflexivity.
Defined.

(* ================================================================== *)
(** ** The places-of-interest tool: enrichment and outcomes *)
(* ================================================================== *)

Lemma for_each_lift_trace {A B} (f : A -> result B) (items : list A) (t : trace) :
  exists r, for_each (fun x => lift (f x)) items t = (r, t).
Proof.
  induction items as [|x items [r IH]]; simpl.
  - eexists. reflexivity.
  - unfold bind, lift at 1. destruct (f x) as [y|e]; [|eexists; reflexivity].
    rewrite IH. destruct r; eexists; reflexivity.
Qed.

Lemma for_each_lift_all {A B} (f : A -> result B) (items : list A) (ys : list B)
    (t : trace) :
  Forall2 (fun x y => f x = Ok y) items ys ->
  for_each (fun x => lift (f x)) items t = (Ok ys, t).
Proof.
  induction 1 as [|x y items ys Hxy _ IH]; simpl; [reflexivity|].
  unfold bind, lift at 1. rewrite Hxy, IH. reflexivity.
Qed.

Lemma all_str_strings (l : list string) : all_str (map VStr l) = Ok l.
Proof. induction l as [|s l IH]; simpl; [reflexivity | now rewrite IH]. Qed.

Lemma join_values_strings (sep : string) (l : list string) :
  join_values sep (map VStr l) = Ok (join sep l).
Proof. unfold join_values. now rewrite all_str_strings. Qed.

Lemma get_fsq_info_no_key (w : World) (name fsq_id : value) (t : trace) :
  environ w "FSQ_API_KEY" = None ->
  get_fsq_info_of_location w name fsq_id t = (Ok VNone, t).
Proof.
  intro H. unfold get_fsq_info_of_location, try_except. rewrite H. reflexivity.
Qed.

(** With the credential set, one call of [get_fsq_info_of_location] is one
    request, and an answer that is [None] or a line beginning with the name. *)
Lemma get_fsq_info_with_key (w : World) (name fsq_id : value) (t : trace)
    (key : string) :
  environ w "FSQ_API_KEY" = Some key ->
  exists v,
    get_fsq_info_of_location w name fsq_id t =
      (Ok v, (t ++ [tips_request w key fsq_id])%list)
    /\ (v = VNone
        \/ exists n rest, name = VStr n /\ v = VStr (n ++ ": " ++ rest)).
Proof.
  intro Hkey. unfold get_fsq_info_of_location, try_except, bind, call.
  rewrite Hkey. fold (tips_request w key fsq_id).
  destruct (requests_get w t _ _ _) as [response|e];
    [|eexists; split; [reflexivity | now left]].
  destruct (negb (status_code response =? 200)%Z);
    [eexists; split; [reflexivity | now left]|].
  unfold lift at 1. destruct (json response) as [tips|e];
    [|eexists; split; [reflexivity | now left]].
  destruct name as [| | | |n| |]; try (eexists; split; [reflexivity | now left]).
  unfold bind, lift at 1. destruct (iterate tips) as [items|e];
    [|eexists; split; [reflexivity | now left]].
  destruct (for_each_lift_trace (fun tip => getitem tip "text") items
              (t ++ [tips_request w key fsq_id])%list) as [r Hr].
  rewrite Hr. destruct r as [texts|e];
    [|eexists; split; [reflexivity | now left]].
  unfold lift. destruct (join_values " " texts) as [joined|e];
    [|eexists; split; [reflexivity | now left]].
  eexists. split; [reflexivity|]. right. eauto.
Qed.

(** X1. [get_fsq_info_of_location] never raises.  Whatever the provider
    does, it returns [None] or, when the name is a string, a line that
    begins with the name and a colon; and it sends at most one request,
    none at all without the credential. *)
Theorem get_fsq_info_of_location_never_raises
    (w : World) (name fsq_id : value) (t : trace) :
  exists v,
    fst (get_fsq_info_of_location w name fsq_id t) = Ok v
    /\ (v = VNone
        \/ exists n rest, name = VStr n /\ v = VStr (n ++ ": " ++ rest))
    /\ match environ w "FSQ_API_KEY" with
       | None => v = VNone /\ snd (get_fsq_info_of_location w name fsq_id t) = t
       | Some key =>
           snd (get_fsq_info_of_location w name fsq_id t) =
             (t ++ [tips_request w key fsq_id])%list
       end.
Proof.
  destruct (environ w "FSQ_API_KEY") as [key|] eqn:Hkey.
  - destruct (get_fsq_info_with_key w name fsq_id t key Hkey) as (v & E & Hv).
    exists v. rewrite E. auto.
  - exists VNone. rewrite (get_fsq_info_no_key w name fsq_id t Hkey). auto.
Qed.

(** What [get_fsq_info_of_location] returns when the tips request is
    answered with status 200 and a list of objects with a [text]. *)
Lemma get_fsq_info_success (w : World) (name : string) (fsq_id : value)
    (t : trace) (key : string) (response : Response) (tips : list value)
    (texts : list string) :
  environ w "FSQ_API_KEY" = Some key ->
  requests_get w t (FSQ_PLACE_INFO_URL (format_arg w fsq_id)) (fsq_headers key)
    [("sort", VStr "POPULAR"); ("limit", VInt 2)] = Ok response ->
  status_code response = 200%Z ->
  json response = Ok (VList tips) ->
  Forall2 has_text tips texts ->
  get_fsq_info_of_location w (VStr name) fsq_id t =
    (Ok (VStr (place_line name texts)),
     (t ++ [tips_request w key fsq_id])%list).
Proof.
  intros Hkey Hget Hstatus Hjson Htexts.
  unfold get_fsq_info_of_location, try_except, bind, call. rewrite Hkey, Hget.
  rewrite Hstatus. change (200 =? 200)%Z with true. cbn [negb].
  unfold lift at 1. rewrite Hjson.
  unfold lift at 1. cbn [iterate]. cbv beta iota.
  rewrite (for_each_lift_all (fun tip => getitem tip "text") tips (map VStr texts)).
  - unfold lift. rewrite join_values_strings. reflexivity.
  - clear -Htexts. induction Htexts; constructor; auto.
Qed.

(** X2. With the credential set, a tips request answered with status 200
    and a list of tips, each with a string [text], makes
    [get_fsq_info_of_location] return the name, a colon and a space, and
    the texts joined by single spaces, in the provider's order; an empty
    list of tips gives the name and the colon alone. *)
Theorem get_fsq_info_of_location_line
    (w : World) (name : string) (fsq_id : value) (t : trace) (key : string)
    (response : Response) (tips : list value) (texts : list string) :
  environ w "FSQ_API_KEY" = Some key ->
  requests_get w t (FSQ_PLACE_INFO_URL (format_arg w fsq_id)) (fsq_headers key)
    [("sort", VStr "POPULAR"); ("limit", VInt 2)] = Ok response ->
  status_code response = 200%Z ->
  json response = Ok (VList tips) ->
  Forall2 has_text tips texts ->
  get_fsq_info_of_location w (VStr name) fsq_id t =
    (Ok (VStr (name ++ ": " ++ join " " texts)),
     (t ++ [tips_request w key fsq_id])%list)
  /\ (tips = [] ->
      fst (get_fsq_info_of_location w (VStr name) fsq_id t) = Ok (VStr (name ++ ": "))).
Proof.
  intros Hkey Hget Hstatus Hjson Htexts.
  pose proof (get_fsq_info_success w name fsq_id t key response tips texts
                Hkey Hget Hstatus Hjson Htexts) as E.
  split; [exact E|].
  intros ->. inversion Htexts; subst. rewrite E. reflexivity.
Qed.

Lemma get_fsq_info_refused (w : World) (name fsq_id : value) (t : trace)
    (key : string) :
  environ w "FSQ_API_KEY" = Some key ->
  tips_refused w key fsq_id ->
  fst (get_fsq_info_of_location w name fsq_id t) = Ok VNone.
Proof.
  intros Hkey Href. destruct (Href t) as (response & Hget & Hstatus).
  unfold get_fsq_info_of_location, try_except, bind, call. rewrite Hkey, Hget.
  destruct (Z.eqb_spec (status_code response) 200) as [E|E]; [contradiction|].
  reflexivity.
Qed.

(** The generator of [get_places_of_interests], run to its end over places
    that all have a name and an identifier: one tips request per place, in
    order, and one description per place. *)
Lemma describe_all (w : World) (key : string) (places : list value)
    (ps : list (value * value)) :
  environ w "FSQ_API_KEY" = Some key ->
  Forall2 has_name_and_id places ps ->
  forall t, exists descriptions,
    for_each (describe_place w) places t =
      (Ok descriptions,
       (t ++ map (fun p => tips_request w key (snd p)) ps)%list)
    /\ Forall2 (fun p d => exists h,
                  fst (get_fsq_info_of_location w (fst p) (snd p) h) = Ok d)
               ps descriptions.
Proof.
  intros Hkey Hall. induction Hall as [|place p places ps Hp _ IH]; intro t.
  - exists []. simpl. rewrite app_nil_r. split; [reflexivity | constructor].
  - destruct Hp as [Hn Hi].
    destruct (get_fsq_info_with_key w (fst p) (snd p) t key Hkey) as (d & Ed & _).
    destruct (IH (t ++ [tips_request w key (snd p)])%list) as (ds & Eds & Hds).
    exists (d :: ds). split.
    + cbn [for_each]. unfold bind at 1. unfold describe_place at 1.
      unfold bind at 1, lift at 1. rewrite Hn.
      unfold bind at 1, lift at 1. rewrite Hi. rewrite Ed.
      unfold bind at 1. rewrite Eds. unfold ret. simpl. now rewrite <- app_assoc.
    + constructor; [|exact Hds]. exists t. now rewrite Ed.
Qed.

Lemma all_str_in_none (items : list value) :
  In VNone items -> exists e, all_str items = Raise e.
Proof.
  induction items as [|x items IH]; [intros [] | intros [H|H]].
  - subst x. simpl. eauto.
  - destruct x; simpl; eauto.
    destruct (IH H) as [e ->]. eauto.
Qed.

(** What [get_places_of_interests] does once the search has answered with
    status 200 and a list of places: it describes them all and joins the
    descriptions. *)
Lemma get_places_after_search (w : World) (lat lon : float64) (radius : Z)
    (t : trace) (key : string) (response : Response) (body : value)
    (places : list value) :
  environ w "FSQ_API_KEY" = Some key ->
  requests_get w t FSQ_PLACE_SEARCH_URL (fsq_headers key)
    (search_params w lat lon radius) = Ok response ->
  status_code response = 200%Z ->
  json response = Ok body ->
  getitem body "results" = Ok (VList places) ->
  get_places_of_interests w lat lon radius t =
    match for_each (describe_place w) places
            (t ++ [places_search w key lat lon radius])%list with
    | (Ok descriptions, t') =>
        (match join_values nl descriptions with
         | Ok d => Ok (VStr d)
         | Raise _ => Ok VNone
         end, t')
    | (Raise _, t') => (Ok VNone, t')
    end.
Proof.
  intros Hkey Hget Hstatus Hjson Hres.
  unfold get_places_of_interests, describe_place, try_except, bind, call.
  unfold search_params in Hget. rewrite Hkey, Hget, Hstatus.
  change (200 =? 200)%Z with true. cbn [negb].
  unfold lift at 1. rewrite Hjson. unfold lift at 1. rewrite Hres.
  unfold lift at 1. cbn [iterate]. cbv beta iota.
  fold (places_search w key lat lon radius).
  destruct (for_each _ places _) as [[ds|e] t']; [|reflexivity].
  unfold lift, ret. destruct (join_values nl ds); reflexivity.
Qed.

Lemma get_places_of_interests_result
    (w : World) (lat lon : float64) (radius : Z) (t : trace) :
  exists v,
    fst (get_places_of_interests w lat lon radius t) = Ok v /\ none_or_str v.
Proof.
  unfold get_places_of_interests, try_except, none_or_str.
  destruct (environ w "FSQ_API_KEY") as [key|]; [|exists VNone; auto].
  unfold bind, call.
  destruct (requests_get w t _ _ _) as [response|e]; [|exists VNone; auto].
  destruct (negb (status_code response =? 200)%Z); [exists VNone; auto|].
  unfold lift at 1. destruct (json response) as [body|e]; [|exists VNone; auto].
  unfold lift at 1. destruct (getitem body "results") as [places|e];
    [|exists VNone; auto].
  unfold lift at 1. destruct (iterate places) as [items|e]; [|exists VNone; auto].
  destruct (for_each _ items _) as [[ds|e] t']; [|exists VNone; auto].
  unfold lift, ret. destruct (join_values nl ds) as [d|e]; [|exists VNone; auto].
  exists (VStr d). eauto.
Qed.

(** X3. [get_places_of_interests] never raises: every failure inside it,
    from the missing credential to a malformed answer, ends in the handler
    that returns [None].  Its result is [None] or a string, and without the
    credential it is [None] with no request sent. *)
Theorem get_places_of_interests_never_raises
    (w : World) (lat lon : float64) (radius : Z) (t : trace) :
  exists v,
    fst (get_places_of_interests w lat lon radius t) = Ok v
    /\ none_or_str v
    /\ (environ w "FSQ_API_KEY" = None ->
        v = VNone /\ snd (get_places_of_interests w lat lon radius t) = t).
Proof.
  destruct (get_places_of_interests_result w lat lon radius t) as (v & Hv & Hs).
  exists v. split; [exact Hv|]. split; [exact Hs|].
  intro Hkey.
  rewrite (get_places_of_interests_no_key w lat lon radius t Hkey) in Hv |- *.
  simpl in Hv |- *. split; congruence.
Qed.

(** [get_location_data] in one equation: one geocoding call, whose outcome
    is handed on, with "nothing found" turned into an error. *)
Lemma get_location_data_eq (w : World) (location : string) (t : trace) :
  get_location_data w location t =
    (match geocoding_rate_limiter w t (location_query location) with
     | Ok (Some details) => Ok details
     | Ok None => Raise (Exception "Location not found. Please refine your query.")
     | Raise e => Raise e
     end,
     (t ++ [Geocode (location_query location)])%list).
Proof.
  unfold get_location_data, try_except, bind, call, ret, raise.
  destruct (geocoding_rate_limiter w t (location_query location)) as [[d|]|e];
    reflexivity.
Qed.

(** X4. The places tool fails exactly when the geocoder does.  If the
    geocoder resolves the location, the tool returns an envelope whose only
    field is [output], holding [None] or a string.  If the geocoder finds
    nothing or raises, the tool raises that same error after the one
    geocoding call, and sends nothing to the places provider. *)
Theorem places_tool_fails_only_with_geocoder
    (w : World) (location : string) (t : trace) :
  match geocoding_rate_limiter w t (location_query location) with
  | Ok (Some _) =>
      exists v,
        fst (PlacesOfInterestTool._run w location t) = Ok (VDict [("output", v)])
        /\ none_or_str v
  | Ok None =>
      PlacesOfInterestTool._run w location t =
        (Raise (Exception "Location not found. Please refine your query."),
         (t ++ [Geocode (location_query location)])%list)
  | Raise e =>
      PlacesOfInterestTool._run w location t =
        (Raise e, (t ++ [Geocode (location_query location)])%list)
  end.
Proof.
  unfold PlacesOfInterestTool._run, bind. rewrite get_location_data_eq.
  destruct (geocoding_rate_limiter w t (location_query location)) as [[details|]|e].
  - destruct (get_places_of_interests_result w (latitude details)
                (longitude details) RADIUS
                (t ++ [Geocode (location_query location)])%list) as (v & Hv & Hs).
    exists v. split; [|exact Hs].
    destruct (get_places_of_interests w _ _ _ _) as [r t']. simpl in Hv.
    subst r. reflexivity.
  - reflexivity.
  - reflexivity.
Qed.

Lemma Forall2_in_left {A B} (R : A -> B -> Prop) (l : list A) (l' : list B) (x : A) :
  Forall2 R l l' -> In x l -> exists y, In y l' /\ R x y.
Proof.
  induction 1 as [|a b l l' Hab _ IH]; intros Hin; [destruct Hin|].
  destruct Hin as [->|Hin].
  - exists b. split; [now left | exact Hab].
  - destruct (IH Hin) as (y & Hy & Hxy). exists y. split; [now right | exact Hxy].
Qed.

(** X5. One enrichment that fails voids the whole answer.  When the search
    has answered with places that all have a name and an identifier, and
    the tips request of any one of them is refused, then
    [get_places_of_interests] still sends a tips request for every place,
    in order, and returns [None]: the descriptions of the other places are
    lost with it. *)
Theorem places_one_refusal_voids_answer
    (w : World) (lat lon : float64) (radius : Z) (t : trace) (key : string)
    (response : Response) (body : value) (places : list value)
    (ps : list (value * value)) (p : value * value) :
  environ w "FSQ_API_KEY" = Some key ->
  requests_get w t FSQ_PLACE_SEARCH_URL (fsq_headers key)
    (search_params w lat lon radius) = Ok response ->
  status_code response = 200%Z ->
  json response = Ok body ->
  getitem body "results" = Ok (VList places) ->
  Forall2 has_name_and_id places ps ->
  In p ps ->
  tips_refused w key (snd p) ->
  get_places_of_interests w lat lon radius t =
    (Ok VNone,
     (t ++ places_search w key lat lon radius
        :: map (fun p => tips_request w key (snd p)) ps)%list).
Proof.
  intros Hkey Hget Hstatus Hjson Hres Hall Hin Href.
  rewrite (get_places_after_search w lat lon radius t key response body places
             Hkey Hget Hstatus Hjson Hres).
  destruct (describe_all w key places ps Hkey Hall
              (t ++ [places_search w key lat lon radius])%list)
    as (ds & E & Hds).
  rewrite E, <- app_assoc. simpl.
  destruct (Forall2_in_left _ _ _ _ Hds Hin) as (d & Hd & (h & Hh)).
  rewrite (get_fsq_info_refused w (fst p) (snd p) h key Hkey Href) in Hh.
  injection Hh as <-.
  unfold join_values. destruct (all_str_in_none ds Hd) as [e ->]. reflexivity.
Qed.

Lemma places_one_refusal_voids_answer_sample :
  get_places_of_interests tips_flaky (latitude pune) (longitude pune) RADIUS [] =
    (Ok VNone,
     [places_search tips_flaky "fsq-key" (latitude pune) (longitude pune) RADIUS;
      tips_request tips_flaky "fsq-key" (VStr "4b0587");
      tips_request tips_flaky "fsq-key" (VStr "5c1234")]).
Proof.
  apply (places_one_refusal_voids_answer tips_flaky (latitude pune) (longitude pune)
           RADIUS [] "fsq-key"
           {| status_code := 200; json := Ok (VDict [("results", VList two_places)]) |}
           (VDict [("results", VList two_places)]) two_places
           [(VStr "Shaniwar Wada", VStr "4b0587");
            (VStr "Aga Khan Palace", VStr "5c1234")]
           (VStr "Aga Khan Palace", VStr "5c1234")).
  - reflexivity.
  - reflexivity.
  - reflexivity.
  - reflexivity.
  - reflexivity.
  - repeat constructor.
  - right. left. reflexivity.
  - intro h. eexists. split; [reflexivity | discriminate].
Defined.

Lemma describe_all_served (w : World) (key : string) (places : list value)
    (ps : list place_info) (t : trace) :
  environ w "FSQ_API_KEY" = Some key ->
  Forall2 (fun place p =>
             has_name_and_id place (VStr (place_name p), VStr (place_id p)))
          places ps ->
  Forall (tips_served w key) ps ->
  for_each (describe_place w) places t =
    (Ok (map (fun p => VStr (place_line (place_name p) (place_tips p))) ps),
     (t ++ map (fun p => tips_request w key (VStr (place_id p))) ps)%list).
Proof.
  intros Hkey Hall. revert t.
  induction Hall as [|place p places ps Hp _ IH]; intros t Hserved.
  - simpl. now rewrite app_nil_r.
  - destruct Hp as [Hn Hi]. simpl in Hn, Hi.
    inversion Hserved as [|? ? Hp Hps]; subst.
    destruct (Hp t) as (response & tips & Hget & Hstatus & Hjson & Htexts).
    cbn [for_each]. unfold bind at 1. unfold describe_place at 1.
    unfold bind at 1, lift at 1. rewrite Hn.
    unfold bind at 1, lift at 1. rewrite Hi.
    rewrite (get_fsq_info_success w (place_name p) (VStr (place_id p)) t key
               response tips (place_tips p) Hkey Hget Hstatus Hjson Htexts).
    unfold bind at 1. rewrite (IH _ Hps). unfold ret. simpl.
    now rewrite <- app_assoc.
Qed.

(** X6. The answer of the places provider, composed.  When the search
    answers with status 200 and a list of places, and the tips provider
    serves every one of them, [get_places_of_interests] returns one line
    per place, in the provider's order and separated by line feeds, each
    the name of the place, a colon and its tips joined by spaces; it has
    sent the search and then one tips request per place, in that order. *)
Theorem places_answer_composed
    (w : World) (lat lon : float64) (radius : Z) (t : trace) (key : string)
    (response : Response) (body : value) (places : list value)
    (ps : list place_info) :
  environ w "FSQ_API_KEY" = Some key ->
  requests_get w t FSQ_PLACE_SEARCH_URL (fsq_headers key)
    (search_params w lat lon radius) = Ok response ->
  status_code response = 200%Z ->
  json response = Ok body ->
  getitem body "results" = Ok (VList places) ->
  Forall2 (fun place p =>
             has_name_and_id place (VStr (place_name p), VStr (place_id p)))
          places ps ->
  Forall (tips_served w key) ps ->
  get_places_of_interests w lat lon radius t =
    (Ok (VStr (join nl (map (fun p => place_name p ++ ": " ++ join " " (place_tips p))
                            ps))),
     (t ++ places_search w key lat lon radius
        :: map (fun p => tips_request w key (VStr (place_id p))) ps)%list).
Proof.
  intros Hkey Hget Hstatus Hjson Hres Hall Hserved.
  rewrite (get_places_after_search w lat lon radius t key response body places
             Hkey Hget Hstatus Hjson Hres).
  rewrite (describe_all_served w key places ps _ Hkey Hall Hserved).
  rewrite <- app_assoc. simpl.
  rewrite <- (map_map (fun p => place_line (place_name p) (place_tips p)) VStr).
  rewrite join_values_strings. reflexivity.
Qed.

Lemma places_answer_composed_sample :
  get_places_of_interests places_up (latitude pune) (longitude pune) RADIUS [] =
    (Ok (VStr "Shaniwar Wada: A fort worth a visit."),
     [places_search places_up "fsq-key" (latitude pune) (longitude pune) RADIUS;
      tips_request places_up "fsq-key" (VStr "4b0587")]).
Proof.
  apply (places_answer_composed places_up (latitude pune) (longitude pune) RADIUS []
           "fsq-key" (places_answer FSQ_PLACE_SEARCH_URL)
           (VDict [("results",
                    VList [VDict [("name", VStr "Shaniwar Wada");
                                  ("fsq_id", VStr "4b0587")]])])
           [VDict [("name", VStr "Shaniwar Wada"); ("fsq_id", VStr "4b0587")]]
           [shaniwar_wada]).
  - reflexivity.
  - reflexivity.
  - reflexivity.
  - reflexivity.
  - reflexivity.
  - repeat constructor.
  - constructor; [|constructor].
    intro h. exists (places_answer (FSQ_PLACE_INFO_URL "4b0587")).
    exists [VDict [("text", VStr "A fort worth a visit.")]].
    repeat split. repeat constructor.
Defined.

Lemma get_fsq_info_of_location_line_sample :
  get_fsq_info_of_location places_up (VStr "Shaniwar Wada") (VStr "4b0587") [] =
    (Ok (VStr "Shaniwar Wada: A fort worth a visit."),
     [tips_request places_up "fsq-key" (VStr "4b0587")]).
Proof.
  apply (proj1 (get_fsq_info_of_location_line places_up "Shaniwar Wada"
                  (VStr "4b0587") [] "fsq-key"
                  (places_answer (FSQ_PLACE_INFO_URL "4b0587"))
                  [VDict [("text", VStr "A fort worth a visit.")]]
                  ["A fort worth a visit."]
                  eq_refl eq_refl eq_refl eq_refl
                  (Forall2_cons (VDict [("text", VStr "A fort worth a visit.")])
                     "A fort worth a visit."
                     (eq_refl : has_text (VDict [("text", VStr "A fort worth a visit.")])
                                         "A fort worth a visit.")
                     (Forall2_nil has_text)))).
Defined.

(* ================================================================== *)
(** ** The route tool: errors and edge cases *)
(* ================================================================== *)

Lemma get_route_no_key (w : World) (locations : value) (mode : string) (t : trace) :
  environ w "BING_API_KEY" = None \/ environ w "BING_API_KEY" = Some "" ->
  get_route w locations mode t = (Raise bing_key_missing, t).
Proof. intros [H|H]; unfold get_route; rewrite H; reflexivity. Qed.




(** X7. Without the routing credential nothing is attempted.  When
    [BING_API_KEY] is unset or empty, [get_route] raises the [ValueError]
    for the missing key and makes no request, whatever the locations and
    the mode are; and so does the route tool on any dict whose
    [transportation_mode] is absent or a string. *)
Theorem get_route_requires_key
    (w : World) (locations : value) (mode : string) (d : dict) (t : trace) :
  environ w "BING_API_KEY" = None \/ environ w "BING_API_KEY" = Some "" ->
  get_route w locations mode t =
    (Raise (ValueError "Bing API key must be set in environment variables."), t)
  /\ (dict_get d "transportation_mode" = None
      \/ (exists tm, dict_get d "transportation_mode" = Some (VStr tm)) ->
      RouteRetriever._run w (VDict d) t =
        (Raise (ValueError "Bing API key must be set in environment variables."), t)).
Proof.
  intro Hkey. split; [exact (get_route_no_key w locations mode t Hkey)|].
  intros Hmode. unfold RouteRetriever._run, bind, ret.
  destruct Hmode as [-> | [tm ->]]; apply (get_route_no_key w _ _ t Hkey).
Qed.

Lemma get_route_requires_key_offline :
  get_route offline (VList [VStr "Mumbai"; VStr "Pune"]) "Driving" [] =
    (Raise (ValueError "Bing API key must be set in environment variables."), [])
  /\ RouteRetriever._run offline
       (VDict [("locations", VList [VStr "Mumbai"; VStr "Pune"])]) [] =
       (Raise (ValueError "Bing API key must be set in environment variables."), []).
Proof.
  destruct (get_route_requires_key offline (VList [VStr "Mumbai"; VStr "Pune"])
              "Driving" [("locations", VList [VStr "Mumbai"; VStr "Pune"])] []
              (or_introl eq_refl)) as [H1 H2].
  split; [exact H1|]. apply H2. left. reflexivity.
Defined.




Lemma collect_itinerary_well_formed (items : list value) (ds : list string)
    (ps : list value) (ds' : list string) (ps' : list value) :
  collect_itinerary items ds ps = Ok (ds', ps') ->
  Forall well_formed_step items.
Proof.
  intro H. destruct (collect_itinerary_spec _ _ _ _ _ H)
    as (nd & np & _ & _ & _ & _ & Hall).
  apply Forall_forall. intros item Hin.
  destruct (In_nth_error _ _ Hin) as [i Hi].
  destruct (Hall i item Hi) as (text & c & Ht & _ & Hc & _).
  split; eauto.
Qed.

(** X10. A route is all or nothing.  With the credential set and string
    locations, if the provider's answer holds the itinerary [items], then
    [get_route] returns an envelope exactly when every step has a string
    instruction text and maneuver coordinates; a single step without them
    turns the whole call into a [ConnectionError]. *)
Theorem get_route_all_or_nothing
    (w : World) (locs : list string) (mode key : string) (t : trace)
    (items : list value) :
  environ w "BING_API_KEY" = Some key ->
  key <> "" ->
  provider_itinerary w t (route_request_url mode locs key) = Ok items ->
  ((exists route, fst (get_route w (VList (map VStr locs)) mode t) = Ok route)
   <-> Forall well_formed_step items)
  /\ (~ Forall well_formed_step items ->
      exists e, fst (get_route w (VList (map VStr locs)) mode t) =
                  Raise (ConnectionError e)).
Proof.
  intros Hkey Hne Hitems.
  pose proof (get_route_eq w (VList (map VStr locs)) mode t key (map VStr locs) _
                Hkey Hne eq_refl (add_waypoints_strings _ locs)) as E.
  rewrite append_assoc in E. fold (route_request_url mode locs key) in E.
  rewrite E. simpl fst. unfold parse_route, rbind. rewrite Hitems.
  destruct (collect_itinerary items [] []) as [[ds ps]|e] eqn:Hc.
  - pose proof (collect_itinerary_well_formed _ _ _ _ _ Hc) as Hwf.
    split; [split; [auto | eauto] | intro Hn; contradiction].
  - assert (Hn : ~ Forall well_formed_step items).
    { intro Hwf.
      destruct (collect_itinerary_total items) with (ds := @nil string) (ps := @nil value)
        as (ds & ps & Hok).
      - intros item Hin. exact (proj1 (Forall_forall _ _) Hwf item Hin).
      - congruence. }
    split; [split; [intros [route Hr]; discriminate Hr | intro; contradiction]|].
    intros _. eauto.
Qed.

Lemma get_route_all_or_nothing_sample :
  ((exists route,
      fst (get_route routing_up (VList (map VStr ["Mumbai"; "Pune"])) "Driving" [])
        = Ok route)
   <-> Forall well_formed_step [itinerary_step "Head north" 1 2;
                                itinerary_step "Arrive at Pune" 3 4])
  /\ (~ Forall well_formed_step [itinerary_step "Head north" 1 2;
                                 itinerary_step "Arrive at Pune" 3 4] ->
      exists e,
        fst (get_route routing_up (VList (map VStr ["Mumbai"; "Pune"])) "Driving" [])
          = Raise (ConnectionError e)).
Proof.
  apply (get_route_all_or_nothing routing_up ["Mumbai"; "Pune"] "Driving" "K" []).
  - reflexivity.
  - exact key_K_not_empty.
  - reflexivity.
Defined.



(** X12. A serialized input is parsed once.  Given a string, the route tool
    hands it to [ast.literal_eval]: if that yields a dict the tool behaves
    as on that dict; if it raises, the tool raises the same error; and if it
    yields anything else (a list, a number, another string) the tool raises
    [AttributeError].  In the last two cases nothing has been sent. *)
Theorem run_parses_serialized_input (w : World) (s : string) (t : trace) :
  match literal_eval w s with
  | Ok (VDict d) =>
      RouteRetriever._run w (VStr s) t = RouteRetriever._run w (VDict d) t
  | Ok _ => RouteRetriever._run w (VStr s) t = (Raise AttributeError, t)
  | Raise e => RouteRetriever._run w (VStr s) t = (Raise e, t)
  end.
Proof.
  unfold RouteRetriever._run, bind, lift, ret.
  destruct (literal_eval w s) as [[]|e]; reflexivity.
Qed.



(* ================================================================== *)
(** ** URL encoding of the waypoints *)
(* ================================================================== *)

Lemma quote_one_char (c : ascii) :
  all_chars quoted_char (quote (String c EmptyString)) = true.
Proof. destruct c as [[] [] [] [] [] [] [] []]; vm_compute; reflexivity. Qed.

Lemma quote_cons (c : ascii) (t : string) :
  quote (String c t) = quote (String c EmptyString) ++ quote t.
Proof. cbn [quote]. destruct (unreserved c); reflexivity. Qed.

Lemma all_chars_append (ok : ascii -> bool) (a b : string) :
  all_chars ok (a ++ b) = all_chars ok a && all_chars ok b.
Proof.
  induction a as [|x a IH]; simpl; [reflexivity|].
  now rewrite IH, andb_assoc.
Qed.

Lemma quoted_char_not_delimiter (c : ascii) :
  quoted_char c = true -> delimiter c = false.
Proof. destruct c as [[] [] [] [] [] [] [] []]; vm_compute; congruence. Qed.

Lemma all_chars_impl (p q : ascii -> bool) (s : string) :
  (forall c, p c = true -> q c = true) ->
  all_chars p s = true -> all_chars q s = true.
Proof.
  intro Hpq. induction s as [|c s IH]; simpl; [auto|].
  rewrite !andb_true_iff. intros [H1 H2]. auto.
Qed.

(** X14. An encoded waypoint cannot break out of its parameter.  Whatever
    the location, its encoding consists of unreserved characters and
    percent signs only, so it contains none of the characters that delimit
    a query string: no ampersand, equals sign, question mark, hash, slash
    or space.  A location made of unreserved characters is left as it is. *)
Theorem quote_has_no_delimiter (loc : string) :
  all_chars quoted_char (quote loc) = true
  /\ all_chars (fun c => negb (delimiter c)) (quote loc) = true
  /\ str_contains "&" (quote loc) = false
  /\ (all_chars unreserved loc = true -> quote loc = loc).
Proof.
  assert (H1 : all_chars quoted_char (quote loc) = true).
  { induction loc as [|c loc IH]; [reflexivity|].
    rewrite quote_cons, all_chars_append, quote_one_char, IH. reflexivity. }
  assert (H2 : all_chars (fun c => negb (delimiter c)) (quote loc) = true).
  { apply (all_chars_impl quoted_char); [|exact H1].
    intros c Hc. now rewrite (quoted_char_not_delimiter c Hc). }
  split; [exact H1|]. split; [exact H2|]. split.
  - destruct (str_contains "&" (quote loc)) eqn:E; [|reflexivity].
    apply str_contains_iff in E. destruct E as (a & b & E).
    rewrite E in H2. clear -H2. exfalso.
    induction a as [|x a IH]; simpl in H2.
    + discriminate H2.
    + apply andb_true_iff in H2. destruct H2 as [_ H2]. auto.
  - clear. induction loc as [|c loc IH]; simpl; [reflexivity|].
    rewrite andb_true_iff. intros [Hc Hl]. rewrite Hc. now rewrite (IH Hl).
Qed.

(* ================================================================== *)
(** ** The tool-completion callback: what it never does *)
(* ================================================================== *)

(** X15. The interceptor is not idempotent.  After it has stripped an
    envelope, the field [geocode_points] holds the empty string, which is
    not [None] and has no [copy] method: handing the same envelope to
    [on_tool_end] a second time raises [AttributeError], and neither the
    log nor the envelope change any more. *)
Theorem on_tool_end_second_pass_raises
    (base : value -> value) (messages : list value) (d : dict)
    (points : list value) :
  dict_get d "geocode_points" = Some (VList points) ->
  let first := on_tool_end base messages (VDict d) in
  on_tool_end base (messages_after first) (output_after first) =
    {| messages_after := messages_after first;
       output_after := output_after first;
       returned := Raise AttributeError |}.
Proof.
  intros Hget first.
  assert (E : first =
              {| messages_after :=
                   (messages ++ [VDict [("geocode_points", VList points)]])%list;
                 output_after := VDict (dict_set d "geocode_points" (VStr ""));
                 returned := Ok (VDict (dict_set d "geocode_points" (VStr ""))) |}).
  { subst first. unfold on_tool_end. rewrite Hget. reflexivity. }
  rewrite E. cbn [messages_after output_after].
  unfold on_tool_end. rewrite dict_get_set_same. reflexivity.
Qed.

Lemma on_tool_end_second_pass_raises_sample :
  let first := on_tool_end (fun _ => VNone) greeting (VDict sample_route_envelope) in
  on_tool_end (fun _ => VNone) (messages_after first) (output_after first) =
    {| messages_after := messages_after first;
       output_after := output_after first;
       returned := Raise AttributeError |}.
Proof.
  apply (on_tool_end_second_pass_raises (fun _ => VNone) greeting
           sample_route_envelope
           [VList [VInt 1; VInt 2]; VList [VInt 3; VInt 4]]).
  reflexivity.
Defined.

(** X16. The session log is append-only under [on_tool_end].  Whatever the
    output of the tool, the messages already in the log stay as they are
    and in place, and at most one message is added.  When one is added it
    is a record whose only field is [geocode_points], the call has
    succeeded, and the envelope it returns has the empty string in that
    field; when none is added the object passed in is left untouched. *)
Theorem on_tool_end_log_append_only
    (base : value -> value) (messages : list value) (output : value) :
  let r := on_tool_end base messages output in
  (messages_after r = messages /\ output_after r = output)
  \/ (exists d points,
        output = VDict d
        /\ dict_get d "geocode_points" = Some points
        /\ messages_after r = (messages ++ [VDict [("geocode_points", points)]])%list
        /\ returned r = Ok (VDict (dict_set d "geocode_points" (VStr "")))
        /\ output_after r = VDict (dict_set d "geocode_points" (VStr ""))).
Proof.
  cbv zeta. destruct output as [| | | | | |d]; try (left; split; reflexivity).
  unfold on_tool_end.
  destruct (dict_get d "geocode_points") as [points|] eqn:Hget;
    [|left; split; reflexivity].
  destruct points; try (left; split; reflexivity);
    right; exists d; eexists; repeat apply conj;
    first [exact Hget | reflexivity].
Qed.

(** X17. Coordinates that cannot be copied.  When [geocode_points] is
    present and is neither [None], a list nor a dict (a string, a number or
    a boolean), [on_tool_end] raises [AttributeError] on the call to [copy],
    before it has touched the log or the envelope. *)
Theorem on_tool_end_uncopyable_points
    (base : value -> value) (messages : list value) (d : dict) (points : value) :
  dict_get d "geocode_points" = Some points ->
  points <> VNone ->
  (forall l, points <> VList l) ->
  (forall e, points <> VDict e) ->
  on_tool_end base messages (VDict d) =
    {| messages_after := messages;
       output_after := VDict d;
       returned := Raise AttributeError |}.
Proof.
  intros Hget Hn Hl Hd. unfold on_tool_end. rewrite Hget.
  destruct points; try reflexivity.
  - congruence.
  - now elim (Hl items).
  - now elim (Hd entries).
Qed.

Lemma on_tool_end_uncopyable_points_sample :
  on_tool_end (fun _ => VNone) greeting
    (VDict [("output", VStr "x"); ("geocode_points", VStr "18.52,73.85")]) =
    {| messages_after := greeting;
       output_after := VDict [("output", VStr "x");
                              ("geocode_points", VStr "18.52,73.85")];
       returned := Raise AttributeError |}.
Proof.
  apply (on_tool_end_uncopyable_points (fun _ => VNone) greeting
           [("output", VStr "x"); ("geocode_points", VStr "18.52,73.85")]
           (VStr "18.52,73.85")).
  - reflexivity.
  - discriminate.
  - intros l H. discriminate H.
  - intros e H. discriminate H.
Defined.

(* ================================================================== *)
(** ** The script: the history, the turn and the render key *)
(* ================================================================== *)

Section ScriptProperties.

Variable FMap : Type.
Variable folium_Map : value -> Z -> string -> result FMap.
Variable add_polyline : FMap -> value -> result FMap.

Local Abbreviation leafmap := (Utils.get_route_leafmap FMap folium_Map add_polyline).
Local Abbreviation show_message := (Main.show_message FMap folium_Map add_polyline).
Local Abbreviation show_messages := (Main.show_messages FMap folium_Map add_polyline).
Local Abbreviation respond := (Main.respond FMap folium_Map add_polyline).
Local Abbreviation script := (Main.script FMap folium_Map add_polyline).
Local Abbreviation State := (Main.State FMap).
Local Abbreviation mkState := (Main.mkState FMap).
Local Abbreviation messages := (Main.messages FMap).
Local Abbreviation page := (Main.page FMap).
Local Abbreviation ChatMessage := (Main.ChatMessage FMap).
Local Abbreviation Write := (Main.Write FMap).
Local Abbreviation Spinner := (Main.Spinner FMap).
Local Abbreviation StFolium := (Main.StFolium FMap).

Lemma show_message_keeps_log (message : value) (s : State) :
  messages (snd (show_message message s)) = messages s.
Proof.
  unfold Main.show_message, Main.ubind, Main.ulift, Main.uret, Main.emit.
  destruct (Main.has_key message "role") as [[|]|e]; [| |reflexivity].
  - destruct (getitem message "role") as [role|e]; [|reflexivity].
    destruct (getitem message "content") as [content|e]; [|reflexivity].
    cbn [messages]. destruct (Main.has_key message "geocode_points") as [[|]|e];
      [| reflexivity | reflexivity].
    destruct (getitem message "geocode_points") as [route|e]; [|reflexivity].
    destruct (getitem message "figure_key") as [key|e]; [|reflexivity].
    destruct (leafmap route) as [m|e]; reflexivity.
  - destruct (Main.has_key message "geocode_points") as [[|]|e];
      [| reflexivity | reflexivity].
    destruct (getitem message "geocode_points") as [route|e]; [|reflexivity].
    destruct (getitem message "figure_key") as [key|e]; [|reflexivity].
    destruct (leafmap route) as [m|e]; reflexivity.
Qed.

Lemma show_messages_keeps_log (l : list value) (s : State) :
  messages (snd (show_messages l s)) = messages s.
Proof.
  revert s. induction l as [|m l IH]; intro s; [reflexivity|].
  cbn [Main.show_messages]. unfold Main.ubind.
  pose proof (show_message_keeps_log m s) as Hm.
  destruct (show_message m s) as [[[]|e] s']; simpl in Hm.
  - now rewrite IH.
  - exact Hm.
Qed.

Lemma show_message_unkeyed (message : value) (s : State) :
  unkeyed message -> exists e, fst (show_message message s) = Raise e.
Proof.
  intros (d & -> & Hp & Hk).
  unfold Main.show_message, Main.ubind, Main.ulift, Main.uret, Main.emit, Main.has_key.
  rewrite Hp.
  assert (Hfk : getitem (VDict d) "figure_key" = Raise (KeyError "figure_key")).
  { simpl. now rewrite Hk. }
  destruct (dict_has d "role").
  - destruct (getitem (VDict d) "role") as [role|e]; [|eexists; reflexivity].
    destruct (getitem (VDict d) "content") as [content|e]; [|eexists; reflexivity].
    destruct (getitem (VDict d) "geocode_points") as [route|e]; [|eexists; reflexivity].
    rewrite Hfk. eexists; reflexivity.
  - destruct (getitem (VDict d) "geocode_points") as [route|e]; [|eexists; reflexivity].
    rewrite Hfk. eexists; reflexivity.
Qed.

Lemma show_messages_unkeyed (l : list value) (m : value) :
  In m l -> unkeyed m ->
  forall s, exists e, fst (show_messages l s) = Raise e.
Proof.
  intros Hin Hm. induction l as [|x l IH]; [destruct Hin|].
  intro s. cbn [Main.show_messages]. unfold Main.ubind.
  destruct Hin as [->|Hin].
  - destruct (show_message_unkeyed m s Hm) as [e He].
    destruct (show_message m s) as [[[]|e'] s']; simpl in He; [discriminate|eexists; reflexivity].
  - destruct (show_message x s) as [[[]|e'] s']; [apply (IH Hin) | eexists; reflexivity].
Qed.

Lemma show_messages_app (l1 l2 : list value) (s : State) :
  show_messages (l1 ++ l2) s =
    Main.ubind FMap (show_messages l1) (fun _ => show_messages l2) s.
Proof.
  revert s. induction l1 as [|m l1 IH]; intro s.
  - reflexivity.
  - cbn [app Main.show_messages]. unfold Main.ubind.
    destruct (show_message m s) as [[[]|e] s']; [|reflexivity].
    rewrite IH. reflexivity.
Qed.

(** A log with an unkeyed record cannot be displayed, so the script stops
    in its history loop: the agent is not asked and the log only gains the
    prompt. *)
Lemma script_unkeyed
    (make_request : option string -> list value -> result string * list value)
    (figure_key : string) (prompt : option string) (l : list value) (m : value) :
  In m l -> unkeyed m ->
  exists e,
    fst (script make_request figure_key prompt (Some l)) = Raise e
    /\ messages (snd (script make_request figure_key prompt (Some l))) =
         with_prompt l prompt.
Proof.
  intros Hin Hm. unfold Main.script, Main.ubind.
  change (match prompt with
          | Some (String c p) =>
              (l ++ [VDict [("role", VStr "user"); ("content", VStr (String c p))]])%list
          | _ => l
          end) with (with_prompt l prompt).
  assert (Hin' : In m (with_prompt l prompt)).
  { unfold with_prompt. destruct prompt as [[|c p]|]; auto.
    apply in_or_app. now left. }
  set (s0 := mkState (with_prompt l prompt) []).
  destruct (show_messages_unkeyed _ m Hin' Hm s0) as [e He].
  pose proof (show_messages_keeps_log (with_prompt l prompt) s0) as Hlog.
  destruct (show_messages (with_prompt l prompt) s0) as [[[]|e'] s'];
    simpl in He, Hlog; [discriminate|].
  exists e'. split; [reflexivity | exact Hlog].
Qed.

(** X18. A record of coordinates without render key blocks the session.
    If the message log holds a message with [geocode_points] and no
    [figure_key], every run of the script fails while displaying the
    history, whatever the prompt and whatever the agent would answer: the
    agent is not asked, and the log is left as it was but for the prompt
    that was appended, so that the next run fails again. *)
Theorem unkeyed_record_blocks_session
    (make_request : option string -> list value -> result string * list value)
    (figure_key : string) (prompt : option string) (l : list value) (m : value) :
  In m l ->
  unkeyed m ->
  (exists e, fst (script make_request figure_key prompt (Some l)) = Raise e)
  /\ messages (snd (script make_request figure_key prompt (Some l))) =
       with_prompt l prompt
  /\ In m (messages (snd (script make_request figure_key prompt (Some l)))).
Proof.
  intros Hin Hm.
  destruct (script_unkeyed make_request figure_key prompt l m Hin Hm) as (e & He & Hl).
  split; [eauto|]. split; [exact Hl|].
  rewrite Hl. unfold with_prompt. destruct prompt as [[|c p]|]; auto.
  apply in_or_app. now left.
Qed.

Lemma last_item_app (l : list value) (x : value) :
  Main.last_item (l ++ [x]) = Ok x.
Proof. unfold Main.last_item. now rewrite rev_unit. Qed.

Lemma set_last_field_app (l : list value) (d : dict) (k : string) (v : value) :
  Main.set_last_field (l ++ [VDict d]) k v = Ok (l ++ [VDict (dict_set d k v)])%list.
Proof. unfold Main.set_last_field. now rewrite rev_unit, rev_involutive. Qed.

Lemma more_than_one (l : list value) (x : value) :
  l <> [] -> (1 <? List.length (l ++ [x])) = true.
Proof.
  intro H. destruct l as [|y l]; [congruence|].
  rewrite length_app. simpl. apply Nat.ltb_lt. lia.
Qed.

Lemma last_item_not_empty (l : list value) (u : value) :
  Main.last_item l = Ok u -> l <> [].
Proof. intros H ->. discriminate H. Qed.

(** The last block of the script when the last message is not from the
    assistant and the agent run ends with a record of coordinates at the
    end of the log: the map is drawn and the record keyed, or the error of
    the map stops the turn. *)
Lemma respond_with_route
    (make_request : option string -> list value -> result string * list value)
    (figure_key : string) (prompt : option string) (l : list value)
    (pg : list (Main.ui_event FMap)) (u role : value) (response : string)
    (l1 : list value) (points : list value) :
  Main.last_item l = Ok u ->
  getitem u "role" = Ok role ->
  Main.not_assistant role = true ->
  make_request prompt l = (Ok response, (l1 ++ [route_record points])%list) ->
  l1 <> [] ->
  respond make_request figure_key prompt (mkState l pg) =
    match leafmap (VList points) with
    | Ok m =>
        (Ok tt,
         mkState (l1 ++ [keyed_route_record points figure_key;
                         assistant_message response])%list
                 (pg ++ [ChatMessage (VStr "assistant"); Spinner;
                         StFolium m (VStr figure_key);
                         Write (VStr response)])%list)
    | Raise e =>
        (Raise e,
         mkState (l1 ++ [route_record points])%list
                 (pg ++ [ChatMessage (VStr "assistant"); Spinner])%list)
    end.
Proof.
  intros Hlast Hrole Hna Hrun Hl1.
  unfold Main.respond, Main.ubind, Main.get_messages, Main.ulift, Main.emit,
    Main.set_messages, Main.uret.
  cbn [messages page]. rewrite Hlast, Hrole, Hna. cbn [messages page].
  rewrite Hrun. cbn [messages page].
  rewrite (more_than_one l1 (route_record points) Hl1), last_item_app.
  unfold route_record at 1 2 3. cbn [Main.has_key dict_has dict_get String.eqb
    Ascii.eqb Bool.eqb getitem].
  unfold route_record at 1. rewrite set_last_field_app.
  destruct (leafmap (VList points)) as [m|e].
  - cbn [messages page]. rewrite <- !app_assoc. reflexivity.
  - rewrite <- !app_assoc. reflexivity.
Qed.

(** X19. Two routes in one turn leave the first without render key.  When
    the agent run appends two records of coordinates, the last block of the
    script draws and keys the last one only and the turn ends well; but the
    first record stays in the log without [figure_key], and from then on no
    run of the script gets past the display of the history. *)
Theorem two_routes_leave_one_unkeyed
    (make_request : option string -> list value -> result string * list value)
    (figure_key : string) (prompt : option string) (l : list value)
    (pg : list (Main.ui_event FMap)) (u role : value) (response : string)
    (first second : list value) (m : FMap) :
  Main.last_item l = Ok u ->
  getitem u "role" = Ok role ->
  Main.not_assistant role = true ->
  make_request prompt l =
    (Ok response, (l ++ [route_record first; route_record second])%list) ->
  leafmap (VList second) = Ok m ->
  let after := (l ++ [route_record first;
                      keyed_route_record second figure_key;
                      assistant_message response])%list in
  respond make_request figure_key prompt (mkState l pg) =
    (Ok tt,
     mkState after
             (pg ++ [ChatMessage (VStr "assistant"); Spinner;
                     StFolium m (VStr figure_key); Write (VStr response)])%list)
  /\ (forall make_request' figure_key' prompt',
        exists e,
          fst (script make_request' figure_key' prompt' (Some after)) = Raise e).
Proof.
  intros Hlast Hrole Hna Hrun Hmap after. split.
  - rewrite (respond_with_route make_request figure_key prompt l pg u role response
               (l ++ [route_record first]) second Hlast Hrole Hna).
    + rewrite Hmap. subst after. rewrite <- !app_assoc. reflexivity.
    + rewrite Hrun, <- app_assoc. reflexivity.
    + intro H. apply app_eq_nil in H. destruct H as [_ H]. discriminate H.
  - intros mk fk pr.
    destruct (script_unkeyed mk fk pr after (route_record first)) as (e & He & _).
    + subst after. apply in_or_app. right. left. reflexivity.
    + exists [("geocode_points", VList first)]. repeat split.
    + eauto.
Qed.

(** X20. A route without steps stops the turn and blocks the session.  When
    the agent run ends with a record whose coordinates are the empty list,
    [get_route_leafmap] raises [IndexError] on [route[0]]: the response is
    not written, no assistant message is recorded, the record stays
    without render key, and no later run of the script gets past the
    display of the history. *)
Theorem empty_route_blocks_session
    (make_request : option string -> list value -> result string * list value)
    (figure_key : string) (prompt : option string) (l : list value)
    (pg : list (Main.ui_event FMap)) (u role : value) (response : string) :
  Main.last_item l = Ok u ->
  getitem u "role" = Ok role ->
  Main.not_assistant role = true ->
  make_request prompt l = (Ok response, (l ++ [route_record []])%list) ->
  respond make_request figure_key prompt (mkState l pg) =
    (Raise IndexError,
     mkState (l ++ [route_record []])%list
             (pg ++ [ChatMessage (VStr "assistant"); Spinner])%list)
  /\ (forall make_request' figure_key' prompt',
        exists e,
          fst (script make_request' figure_key' prompt'
                 (Some (l ++ [route_record []])%list)) = Raise e).
Proof.
  intros Hlast Hrole Hna Hrun. split.
  - rewrite (respond_with_route make_request figure_key prompt l pg u role response
               l [] Hlast Hrole Hna Hrun (last_item_not_empty l u Hlast)).
    reflexivity.
  - intros mk fk pr.
    destruct (script_unkeyed mk fk pr (l ++ [route_record []])%list (route_record []))
      as (e & He & _).
    + apply in_or_app. right. left. reflexivity.
    + exists [("geocode_points", VList [])]. repeat split.
    + eauto.
Qed.

(** X21. From an itinerary without steps to the failure of the map.  With
    the credential set, a provider answer whose itinerary is empty makes
    [get_route] succeed with an empty [output] and an empty list of
    coordinates; [on_tool_end] takes that list for coordinates and appends
    the record of the empty list to the log; and [get_route_leafmap] raises
    [IndexError] on that route, before folium is called. *)
Theorem empty_itinerary_reaches_the_map
    (w : World) (locs : list string) (mode key : string) (t : trace)
    (base : value -> value) (log : list value) :
  environ w "BING_API_KEY" = Some key ->
  key <> "" ->
  provider_itinerary w t (route_request_url mode locs key) = Ok [] ->
  let envelope := VDict [("output", VStr ""); ("geocode_points", VList [])] in
  get_route w (VList (map VStr locs)) mode t =
    (Ok envelope, (t ++ [UrlOpen (route_request_url mode locs key)])%list)
  /\ messages_after (on_tool_end base log envelope) = (log ++ [route_record []])%list
  /\ returned (on_tool_end base log envelope) =
       Ok (VDict [("output", VStr ""); ("geocode_points", VStr "")])
  /\ leafmap (VList []) = Raise IndexError.
Proof.
  intros Hkey Hne Hitems envelope. split; [|repeat split].
  pose proof (get_route_eq w (VList (map VStr locs)) mode t key (map VStr locs) _
                Hkey Hne eq_refl (add_waypoints_strings _ locs)) as E.
  rewrite append_assoc in E. fold (route_request_url mode locs key) in E.
  rewrite E. unfold parse_route, rbind. rewrite Hitems. reflexivity.
Qed.

(** X22. One route in a turn keeps the history displayable.  When the agent
    run appends one record of coordinates and folium can draw them, the
    last block of the script draws the map under the fresh key, stores the
    key in the record, writes the response and records it.  If the history
    could be displayed before the turn, the new log is displayed in full on
    the next run, with the same map under the same key. *)
Theorem one_route_keeps_history
    (make_request : option string -> list value -> result string * list value)
    (figure_key : string) (prompt : option string) (l : list value)
    (pg : list (Main.ui_event FMap)) (u role : value) (response : string)
    (points : list value) (m : FMap) (s0 s1 : State) :
  Main.last_item l = Ok u ->
  getitem u "role" = Ok role ->
  Main.not_assistant role = true ->
  make_request prompt l = (Ok response, (l ++ [route_record points])%list) ->
  leafmap (VList points) = Ok m ->
  show_messages l s0 = (Ok tt, s1) ->
  let after := (l ++ [keyed_route_record points figure_key;
                      assistant_message response])%list in
  respond make_request figure_key prompt (mkState l pg) =
    (Ok tt,
     mkState after
             (pg ++ [ChatMessage (VStr "assistant"); Spinner;
                     StFolium m (VStr figure_key); Write (VStr response)])%list)
  /\ show_messages after s0 =
       (Ok tt,
        mkState (messages s1)
                (page s1 ++ [StFolium m (VStr figure_key);
                             ChatMessage (VStr "assistant");
                             Write (VStr response)])%list).
Proof.
  intros Hlast Hrole Hna Hrun Hmap Hshow after. split.
  - rewrite (respond_with_route make_request figure_key prompt l pg u role response
               l points Hlast Hrole Hna Hrun (last_item_not_empty l u Hlast)).
    rewrite Hmap. reflexivity.
  - subst after. rewrite show_messages_app. unfold Main.ubind at 1. rewrite Hshow.
    cbn [Main.show_messages]. unfold Main.ubind, Main.uret.
    unfold Main.show_message, Main.ubind, Main.ulift, Main.uret, Main.emit.
    unfold keyed_route_record, assistant_message.
    cbn [Main.has_key dict_has dict_get String.eqb Ascii.eqb Bool.eqb getitem].
    rewrite Hmap. cbn [messages page]. rewrite <- !app_assoc. reflexivity.
Qed.

(** X23. A run without input changes nothing.  When the history can be
    displayed and its last message is from the assistant, a run of the
    script without prompt displays the history and stops: the agent is not
    asked, whatever it would answer, and the log is the same afterwards. *)
Theorem idle_run_keeps_log
    (make_request : option string -> list value -> result string * list value)
    (figure_key : string) (l : list value) (a : value) (s1 : State) :
  show_messages l (mkState l []) = (Ok tt, s1) ->
  Main.last_item l = Ok a ->
  getitem a "role" = Ok (VStr "assistant") ->
  script make_request figure_key None (Some l) = (Ok tt, s1)
  /\ messages s1 = l.
Proof.
  intros Hshow Hlast Hrole.
  pose proof (show_messages_keeps_log l (mkState l [])) as Hlog.
  rewrite Hshow in Hlog. simpl in Hlog. split; [|exact Hlog].
  unfold Main.script, Main.ubind at 1. rewrite Hshow.
  unfold Main.respond, Main.ubind, Main.get_messages, Main.ulift, Main.uret.
  rewrite Hlog, Hlast, Hrole. reflexivity.
Qed.

End ScriptProperties.

Lemma unkeyed_record_blocks_session_sample :
  let l := (asked ++ [route_record leg_a])%list in
  (exists e,
     fst (Main.script drawn sample_Map sample_polyline agent_one_route "key-1"
            (Some "hello") (Some l)) = Raise e)
  /\ Main.messages drawn
       (snd (Main.script drawn sample_Map sample_polyline agent_one_route "key-1"
               (Some "hello") (Some l))) = with_prompt l (Some "hello")
  /\ In (route_record leg_a)
        (Main.messages drawn
           (snd (Main.script drawn sample_Map sample_polyline agent_one_route "key-1"
                   (Some "hello") (Some l)))).
Proof.
  apply (unkeyed_record_blocks_session drawn sample_Map sample_polyline
           agent_one_route "key-1" (Some "hello")
           (asked ++ [route_record leg_a])%list (route_record leg_a)).
  - right. right. left. reflexivity.
  - exists [("geocode_points", VList leg_a)]. repeat split.
Defined.

Lemma two_routes_leave_one_unkeyed_sample :
  let after := (asked ++ [route_record leg_a;
                          keyed_route_record leg_b "key-1";
                          assistant_message "Here are both routes."])%list in
  Main.respond drawn sample_Map sample_polyline agent_two_routes "key-1"
    (Some "Route from Mumbai to Pune") (Main.mkState drawn asked []) =
    (Ok tt,
     Main.mkState drawn after
       ([] ++ [Main.ChatMessage drawn (VStr "assistant"); Main.Spinner drawn;
               Main.StFolium drawn (VList [VInt 5; VInt 6], VList leg_b)
                                   (VStr "key-1");
               Main.Write drawn (VStr "Here are both routes.")])%list)
  /\ (forall make_request' figure_key' prompt',
        exists e,
          fst (Main.script drawn sample_Map sample_polyline make_request'
                 figure_key' prompt' (Some after)) = Raise e).
Proof.
  apply (two_routes_leave_one_unkeyed drawn sample_Map sample_polyline
           agent_two_routes "key-1" (Some "Route from Mumbai to Pune") asked []
           (user_message "Route from Mumbai to Pune") (VStr "user")
           "Here are both routes." leg_a leg_b
           (VList [VInt 5; VInt 6], VList leg_b)); reflexivity.
Defined.

Lemma empty_route_blocks_session_sample :
  Main.respond drawn sample_Map sample_polyline agent_empty_route "key-1"
    (Some "Route from Mumbai to Pune") (Main.mkState drawn asked []) =
    (Raise IndexError,
     Main.mkState drawn (asked ++ [route_record []])%list
       ([] ++ [Main.ChatMessage drawn (VStr "assistant"); Main.Spinner drawn])%list)
  /\ (forall make_request' figure_key' prompt',
        exists e,
          fst (Main.script drawn sample_Map sample_polyline make_request'
                 figure_key' prompt' (Some (asked ++ [route_record []])%list))
            = Raise e).
Proof.
  apply (empty_route_blocks_session drawn sample_Map sample_polyline
           agent_empty_route "key-1" (Some "Route from Mumbai to Pune") asked []
           (user_message "Route from Mumbai to Pune") (VStr "user")
           "Here is your route."); reflexivity.
Defined.

Lemma empty_itinerary_reaches_the_map_sample :
  let envelope := VDict [("output", VStr ""); ("geocode_points", VList [])] in
  get_route routing_no_steps (VList (map VStr ["Mumbai"; "Pune"])) "Driving" [] =
    (Ok envelope,
     ([] ++ [UrlOpen (route_request_url "Driving" ["Mumbai"; "Pune"] "K")])%list)
  /\ messages_after (on_tool_end (fun _ => VNone) asked envelope) =
       (asked ++ [route_record []])%list
  /\ returned (on_tool_end (fun _ => VNone) asked envelope) =
       Ok (VDict [("output", VStr ""); ("geocode_points", VStr "")])
  /\ Utils.get_route_leafmap drawn sample_Map sample_polyline (VList []) =
       Raise IndexError.
Proof.
  apply (empty_itinerary_reaches_the_map drawn sample_Map sample_polyline
           routing_no_steps ["Mumbai"; "Pune"] "Driving" "K" []
           (fun _ => VNone) asked).
  - reflexivity.
  - exact key_K_not_empty.
  - reflexivity.
Defined.

Lemma one_route_keeps_history_sample :
  let after := (asked ++ [keyed_route_record leg_a "key-1";
                          assistant_message "Here is your route."])%list in
  Main.respond drawn sample_Map sample_polyline agent_one_route "key-1"
    (Some "Route from Mumbai to Pune") (Main.mkState drawn asked []) =
    (Ok tt,
     Main.mkState drawn after
       ([] ++ [Main.ChatMessage drawn (VStr "assistant"); Main.Spinner drawn;
               Main.StFolium drawn (VList [VInt 1; VInt 2], VList leg_a)
                                   (VStr "key-1");
               Main.Write drawn (VStr "Here is your route.")])%list)
  /\ Main.show_messages drawn sample_Map sample_polyline after
       (Main.mkState drawn after []) =
       (Ok tt,
        Main.mkState drawn
          (Main.messages drawn
             (snd (Main.show_messages drawn sample_Map sample_polyline asked
                     (Main.mkState drawn after []))))
          (Main.page drawn
             (snd (Main.show_messages drawn sample_Map sample_polyline asked
                     (Main.mkState drawn after [])))
           ++ [Main.StFolium drawn (VList [VInt 1; VInt 2], VList leg_a)
                                   (VStr "key-1");
               Main.ChatMessage drawn (VStr "assistant");
               Main.Write drawn (VStr "Here is your route.")])%list).
Proof.
  apply (one_route_keeps_history drawn sample_Map sample_polyline
           agent_one_route "key-1" (Some "Route from Mumbai to Pune") asked []
           (user_message "Route from Mumbai to Pune") (VStr "user")
           "Here is your route." leg_a
           (VList [VInt 1; VInt 2], VList leg_a)); reflexivity.
Defined.

Lemma idle_run_keeps_log_sample :
  Main.script drawn sample_Map sample_polyline agent_one_route "key-1" None
    (Some greeting) =
    (Ok tt,
     Main.mkState drawn greeting
       [Main.ChatMessage drawn (VStr "assistant");
        Main.Write drawn (VStr "Ask me anything about anywhere!")])
  /\ Main.messages drawn
       (Main.mkState drawn greeting
          [Main.ChatMessage drawn (VStr "assistant");
           Main.Write drawn (VStr "Ask me anything about anywhere!")]) = greeting.
Proof.
  apply (idle_run_keeps_log drawn sample_Map sample_polyline agent_one_route
           "key-1" greeting
           (VDict [("role", VStr "assistant");
                   ("content", VStr "Ask me anything about anywhere!")]));
    reflexivity.
Defined.
